(** * install_rail.py: the environment-manager resolver and its helpers

    A shallow embedding of [src/install_rail.py].  Python strings are
    [string]s whose characters are code points below 256; integers are [Z];
    tuples of integers are [list Z]; [None]-able values are [option]s.
    The machine the script runs on (search path, file system, terminal,
    sub-shell) is a record of oracles, the script's own effects (lines read
    from the operator, text printed, commands run) are threaded through a
    small state-and-exception monad. *)

From Stdlib Require Import String Ascii List ZArith Bool Lia DecimalString.
Import ListNotations.
Local Open Scope string_scope.
Local Open Scope Z_scope.
Set Warnings "-register-all".

(** ** Python built-ins used by the script *)

Module Py.

(** [str.isspace] on one character: the code points below 256 that
    [str.strip()] removes. *)
Definition is_space (c : ascii) : bool :=
  let n := N_of_ascii c in
  (((9 <=? n) && (n <=? 13)) || ((28 <=? n) && (n <=? 32))
   || (n =? 133) || (n =? 160))%N.

Fixpoint lstrip (s : string) : string :=
  match s with
  | EmptyString => EmptyString
  | String c s' => if is_space c then lstrip s' else s
  end.

(** Right strip: a character is dropped when it is white space and
    everything after it has been dropped. *)
Fixpoint rstrip (s : string) : string :=
  match s with
  | EmptyString => EmptyString
  | String c s' =>
      match rstrip s' with
      | EmptyString => if is_space c then EmptyString else String c EmptyString
      | r => String c r
      end
  end.

(** [s.strip()] *)
Definition strip (s : string) : string := rstrip (lstrip s).

(** [s.split(sep)] for a one-character separator: never the empty list. *)
Fixpoint split (sep : ascii) (s : string) : list string :=
  match s with
  | EmptyString => [EmptyString]
  | String c s' =>
      if Ascii.eqb c sep then EmptyString :: split sep s'
      else match split sep s' with
           | [] => [String c EmptyString]
           | h :: t => String c h :: t
           end
  end.

(** [s.rindex(c)]: the highest index of [c], [None] for [ValueError]. *)
Fixpoint rindex (c : ascii) (s : string) : option nat :=
  match s with
  | EmptyString => None
  | String a s' =>
      match rindex c s' with
      | Some i => Some (S i)
      | None => if Ascii.eqb a c then Some 0%nat else None
      end
  end.

(** [s[n:]] *)
Fixpoint slice_from (n : nat) (s : string) : string :=
  match n, s with
  | O, _ => s
  | S n', String _ s' => slice_from n' s'
  | S _, EmptyString => EmptyString
  end.

(** [sep.join(l)] *)
Fixpoint join (sep : string) (l : list string) : string :=
  match l with
  | [] => EmptyString
  | [x] => x
  | x :: rest => x ++ sep ++ join sep rest
  end.

(** [s.startswith(c)] and [s.endswith(c)] for a one-character [c]. *)
Definition startswith (c : ascii) (s : string) : bool :=
  match s with
  | String a _ => Ascii.eqb a c
  | EmptyString => false
  end.

Fixpoint endswith (c : ascii) (s : string) : bool :=
  match s with
  | EmptyString => false
  | String a EmptyString => Ascii.eqb a c
  | String _ s' => endswith c s'
  end.

(** [needle in haystack] for strings. *)
Fixpoint contains (needle haystack : string) : bool :=
  prefix needle haystack
  || match haystack with
     | EmptyString => false
     | String _ h' => contains needle h'
     end.

(** [x in l] for a list of strings. *)
Definition mem (x : string) (l : list string) : bool :=
  existsb (String.eqb x) l.

Definition is_digit (c : ascii) : bool :=
  let n := N_of_ascii c in ((48 <=? n) && (n <=? 57))%N.

Definition digit_value (c : ascii) : Z := Z.of_N (N_of_ascii c) - 48.

(** The digits of a decimal literal: single underscores are allowed between
    digits.  [prev] tells whether the previous character was a digit. *)
Fixpoint digits (acc : Z) (prev : bool) (s : string) : option Z :=
  match s with
  | EmptyString => if prev then Some acc else None
  | String c s' =>
      if is_digit c then digits (10 * acc + digit_value c) true s'
      else if Ascii.eqb c "_" then
             if prev then digits acc false s' else None
      else None
  end.

(** The white space that [int()] skips around a literal.  It is not that of
    [str.strip()]: the separators U+001C to U+001F are white space for
    [strip] and are refused by [int]. *)
Definition is_int_space (c : ascii) : bool :=
  let n := N_of_ascii c in
  (((9 <=? n) && (n <=? 13)) || (n =? 32) || (n =? 133) || (n =? 160))%N.

Fixpoint int_lstrip (s : string) : string :=
  match s with
  | EmptyString => EmptyString
  | String c s' => if is_int_space c then int_lstrip s' else s
  end.

Fixpoint int_rstrip (s : string) : string :=
  match s with
  | EmptyString => EmptyString
  | String c s' =>
      match int_rstrip s' with
      | EmptyString => if is_int_space c then EmptyString else String c EmptyString
      | r => String c r
      end
  end.

(** The number of digits of a literal, underscores left out. *)
Fixpoint count_digits (s : string) : Z :=
  match s with
  | EmptyString => 0
  | String c s' => (if is_digit c then 1 else 0) + count_digits s'
  end.

(** [sys.int_info.default_max_str_digits]: the script leaves the limit of
    the interpreter as it is. *)
Definition int_max_str_digits : Z := 4300.

(** A literal without its sign: digits, within the limit on their number. *)
Definition literal (t : string) : option Z :=
  if int_max_str_digits <? count_digits t then None else digits 0 false t.

(** [int(s)] in base ten: white space around, an optional sign, digits.
    [None] stands for [ValueError].  The decimal digits of other scripts,
    which [int] reads too, lie above code point 255 and are not characters
    of these strings. *)
Definition int (s : string) : option Z :=
  match int_rstrip (int_lstrip s) with
  | String "+" r => literal r
  | String "-" r => option_map Z.opp (literal r)
  | t => literal t
  end.

(** The characters a string that [int] accepts is made of. *)
Definition int_character (c : ascii) : bool :=
  is_digit c || Ascii.eqb c "_" || Ascii.eqb c "+" || Ascii.eqb c "-"
  || is_int_space c.

(** [a < b] on tuples of integers: the first differing position decides,
    and a proper prefix is smaller. *)
Fixpoint tuple_lt (a b : list Z) : bool :=
  match a, b with
  | [], [] => false
  | [], _ :: _ => true
  | _ :: _, [] => false
  | x :: a', y :: b' => if x =? y then tuple_lt a' b' else x <? y
  end.

(** [template.format] with keyword arguments, for templates with plain [{name}] fields:
    [field] holds the name being read.  [None] stands for the [KeyError] or
    [ValueError] of a missing name or an unclosed field. *)
Fixpoint format_from (bindings : list (string * string)) (field : option string)
    (template : string) : option string :=
  match template with
  | EmptyString => match field with None => Some EmptyString | Some _ => None end
  | String c t =>
      match field with
      | None =>
          if Ascii.eqb c "{" then format_from bindings (Some EmptyString) t
          else option_map (String c) (format_from bindings None t)
      | Some f =>
          if Ascii.eqb c "}" then
            match find (fun kv => String.eqb (fst kv) f) bindings with
            | Some kv => option_map (append (snd kv)) (format_from bindings None t)
            | None => None
            end
          else format_from bindings (Some (f ++ String c EmptyString)) t
      end
  end.

Definition format (template : string) (bindings : list (string * string))
  : option string :=
  format_from bindings None template.

End Py.


(** ** Text constants *)

(** The line feed and the escape character of the script's string literals. *)
Definition LF : string := String "010" EmptyString.
Definition ESC : string := String "027" EmptyString.

Definition FOREGROUND_COLORS : list (string * N) :=
  [("red", 31%N); ("blue", 34%N); ("magenta", 35%N); ("cyan", 36%N)].

Definition OPTIONS : list (string * N) := [("invert", 7%N)].

Definition lookup {V : Type} (k : string) (d : list (string * V)) : option V :=
  option_map snd (find (fun kv => String.eqb (fst kv) k) d).

Definition str_of_N (n : N) : string := NilZero.string_of_uint (N.to_uint n).

(** [style(fg, invert)]; the colours asked for are all in the table. *)
Definition style (fg : option string) (invert : bool) : string :=
  let table_code (k : option string) (d : list (string * N)) : list N :=
    match k with
    | Some c => match lookup c d with
                | Some n => [n]
                | None => []
                end
    | None => []
    end in
  let codes :=
    (table_code fg FOREGROUND_COLORS
     ++ table_code (if invert then Some "invert" else None) OPTIONS)%list in
  ESC ++ "[" ++ Py.join ";" (map str_of_N codes) ++ "m".

Definition STYLES : list (string * string) :=
  [("error", style (Some "red") false);
   ("cmd", style (Some "cyan") false);
   ("path", style (Some "cyan") false);
   ("question", style (Some "magenta") false);
   ("highlight", style (Some "blue") false)].

Definition EXTRA_RAIL_PACKAGES : list string :=
  ["pz-rail-astro-tools"; "pz-rail-bpz"; "pz-rail-cmnn"; "pz-rail-dnf";
   "pz-rail-dsps"; "pz-rail-flexzboost"; "pz-rail-fsps"; "pz-rail-gpz-v1";
   "pz-rail-pzflow"; "pz-rail-sklearn"; "pz-rail-som"; "pz-rail-yaw";
   "pz-rail-lephare"].

Definition ERROR_NONINTERACTIVE_INPUT : string :=
  LF ++ "User input needed, but output device is not a tty. To run the RAIL installation script"
  ++ LF ++ "in an unattended mode, ensure all choices are given as command-line options."
  ++ LF ++ LF ++ "Input needed: {prompt}" ++ LF.

Definition ERROR_ENV_MANAGER_ALREADY_INSTALLED : string :=
  LF ++ "Requested installation of `{to_install}` but `{already_installed}` was already found on"
  ++ LF ++ "the system." ++ LF.

Definition ERROR_ENV_MANAGER_OUT_OF_DATE : string :=
  LF ++ "The installed version of `{env_manager}` ({present}) is out of date, at least {required} is"
  ++ LF ++ "required. Please manually upgrade or remove it." ++ LF.

Definition ERROR_SPECS_MESSAGE : string :=
  LF ++ "If this error occurred while creating or installing into a Python virtual environment,"
  ++ LF ++ "and the error message is vague, this may be related to hardware specifications. Please"
  ++ LF ++ "visit the RAIL documentation on minimum requirements."
  ++ LF ++ LF
  ++ "Working with the RAIL virtual environment requires at least 4GiB of RAM, and 5GiB of free storage."
  ++ LF.

Definition ERROR_ENV_MANAGER_EXISTS_WITHOUT_PATH : string :=
  LF ++ LF ++ "`{env_manager} is not present in $PATH, but an activation script exists at"
  ++ LF ++ "{activation_script_path}. Follow the {env_manager} instructions for initializing your"
  ++ LF ++ "shell, then restart your terminal session." ++ LF.

Definition MESSAGE_ENV_EXISTS : string :=
  LF ++ "An environment named {name} already exists."
  ++ LF ++ "Please choose another name, or exit the script, remove the"
  ++ LF ++ "environment, and try again. See the documentation on removing"
  ++ LF ++ "environments at:"
  ++ LF ++ "https://docs.conda.io/projects/conda/en/stable/commands/env/remove.html"
  ++ LF ++ LF
  ++ "Note that if this script was halted partway through environment creation, environment"
  ++ LF ++ "removal may be less straightforward" ++ LF.

Definition MESSAGE_NO_ENV_MANAGER_FOUND : string :=
  LF ++ "Require one of {executables} to be present in $PATH."
  ++ LF ++ "If one of these is already installed, this script cannot find it." ++ LF.

(** ** Data model *)

(** [EnvironmentManager]: one entry of the registry. *)
Record EnvironmentManager := {
  name : string;
  installable : bool;
  executable : string;
  directory : option string;
  installer_link : option string;
  installer_options : option (list string);
  activation_script : option string
}.

(** [subprocess.CompletedProcess]: a stream that was not captured is [None]. *)
Record CompletedProcess := {
  returncode : Z;
  stdout : option string;
  stderr : option string
}.

(** A decoded JSON document, as far as the script looks into one.  [PScalar]
    stands for [None], booleans and numbers, identified up to Python's [==]. *)
Inductive pyval :=
| PStr (s : string)
| PList (l : list pyval)
| PDict (items : list (string * pyval))
| PScalar (id : nat).

(** The machine the script runs on.  Its answers are taken as fixed for the
    duration of one call. *)
Record Machine := {
  which : string -> bool;        (* [shutil.which(name) is not None] *)
  path_exists : string -> bool;  (* [Path(p).exists()] *)
  isatty : bool;                 (* [sys.stdout.isatty()] *)
  home : string;                 (* what [~] expands to *)
  environ_SHELL : option string; (* [os.environ] at [SHELL] *)
  subprocess_run : string -> bool -> CompletedProcess;
                                 (* the shell, by command and [capture_output] *)
  json_loads : string -> option pyval
}.

(** What the script does to the outside, newest first. *)
Inductive Event :=
| Printed (text : string)
| Header (message : string)
| Prompted (prompt : string)
| Ran (cmd : string) (capture : bool)
| Mkdir (path : string)
| Unlink (path : string).

Inductive exn :=
| RAILInstallationError (message : string) (return_code : Z)
| ValueError
| EOFError
| AttributeError
| KeyError
| IndexError
| TypeError
| UnboundLocalError
| JSONDecodeError.

Inductive outcome (A : Type) :=
| Return (a : A)
| Raise (e : exn).
Arguments Return {A} a.
Arguments Raise {A} e.

(** The lines the operator will type, and the events so far. *)
Record Session := {
  stdin : list string;
  log : list Event
}.

Definition M (A : Type) : Type := Session -> outcome A * Session.

Definition ret {A} (a : A) : M A := fun s => (Return a, s).

Definition raise {A} (e : exn) : M A := fun s => (Raise e, s).

Definition bind {A B} (c : M A) (k : A -> M B) : M B :=
  fun s => match c s with
           | (Return a, s') => k a s'
           | (Raise e, s') => (Raise e, s')
           end.

Notation "x <- c ;; k" := (bind c (fun x => k))
  (at level 61, c at next level, right associativity).
Notation "c ;;; k" := (bind c (fun _ => k))
  (at level 61, right associativity).

Definition emit (e : Event) : M unit :=
  fun s => (Return tt, {| stdin := stdin s; log := e :: log s |}).

Definition print (text : string) : M unit := emit (Printed text).

(** [print_header]: the underline depends on the terminal's width and is
    left out of the event. *)
Definition print_header (message : string) : M unit := emit (Header message).

(** A value that must not be [None]. *)
Definition expect {A} (e : exn) (o : option A) : M A :=
  match o with
  | Some a => ret a
  | None => raise e
  end.

(** The number of times the operator was asked for a line. *)
Fixpoint prompts (l : list Event) : nat :=
  match l with
  | [] => 0%nat
  | Prompted _ :: rest => S (prompts rest)
  | _ :: rest => prompts rest
  end.

(** The commands run so far, oldest first. *)
Fixpoint commands (l : list Event) : list string :=
  match l with
  | [] => []
  | Ran cmd _ :: rest => commands rest ++ [cmd]
  | _ :: rest => commands rest
  end.

(** Keyword arguments of the [run_cmd] family. *)
Record Kwargs := {
  as_comment : bool;
  capture_output : bool
}.

Definition no_kwargs : Kwargs := {| as_comment := false; capture_output := false |}.

(** ** Paths *)

(** [Path(p).expanduser()] for the forms the registry uses.  The home
    directory is taken in normal form and other than the root, so that the
    join needs no normalisation of slashes. *)
Definition expanduser (home : string) (p : string) : string :=
  match p with
  | String "~" EmptyString => home
  | String "~" (String "/" rest) => home ++ "/" ++ rest
  | _ => p
  end.

(** [a / b] for a relative [b]. *)
Definition joinpath (a b : string) : string := a ++ "/" ++ b.

(** [Path(p).name]: the last component that is neither empty nor a dot. *)
Definition path_name (p : string) : string :=
  last (filter (fun c => negb (String.eqb c "" || String.eqb c "."))
               (Py.split "/" p)) "".

(** [s[:n]] *)
Definition slice_to (n : nat) (s : string) : string := substring 0 n s.

(** [Path(p).stem]: the name without its last suffix. *)
Definition path_stem (p : string) : string :=
  let nm := path_name p in
  match Py.rindex "." nm with
  | Some i =>
      if ((0 <? i) && (i <? String.length nm - 1))%nat then slice_to i nm else nm
  | None => nm
  end.

(** ** The registry *)

Section Registry.

Variable home_dir : string.

(** The constructor with its [__post_init__]. *)
Definition mkEnvironmentManager (name : string) (installable : bool)
    (executable : string) (directory : option string)
    (installer_link : option string) (installer_options : option (list string))
  : EnvironmentManager :=
  let directory := option_map (expanduser home_dir) directory in
  {| name := name;
     installable := installable;
     executable := if String.eqb executable "" then name else executable;
     directory := directory;
     installer_link := installer_link;
     installer_options := installer_options;
     activation_script :=
       option_map (fun d => joinpath (joinpath d "bin") "activate") directory |}.

Definition ENV_MANAGER_INFO : list EnvironmentManager :=
  [ mkEnvironmentManager "micromamba" false "" None None None;
    mkEnvironmentManager "mamba" true "" (Some "~/miniforge3")
      (Some "https://github.com/conda-forge/miniforge/releases/latest/download/Miniforge3-{kernel}-{architecture}.sh")
      (Some ["-b"; "-u"; "-p"]);
    mkEnvironmentManager "miniconda" true "conda" (Some "~/miniconda3")
      (Some "https://repo.anaconda.com/miniconda/Miniconda3-latest-{kernel}-{architecture}.sh")
      (Some ["-b"; "-u"; "-c"; "-p"]);
    mkEnvironmentManager "anaconda" false "conda" (Some "~/anaconda3") None None ].

End Registry.

(** Python's [==] on decoded values; a dictionary has no repeated key. *)
Fixpoint pyval_eqb (a b : pyval) {struct a} : bool :=
  match a, b with
  | PStr x, PStr y => String.eqb x y
  | PScalar x, PScalar y => Nat.eqb x y
  | PList l1, PList l2 =>
      (fix elements (l1 l2 : list pyval) {struct l1} : bool :=
         match l1, l2 with
         | [], [] => true
         | x :: r1, y :: r2 => pyval_eqb x y && elements r1 r2
         | _, _ => false
         end) l1 l2
  | PDict d1, PDict d2 =>
      Nat.eqb (List.length d1) (List.length d2)
      && (fix members (d : list (string * pyval)) {struct d} : bool :=
            match d with
            | [] => true
            | (k, v) :: r =>
                match lookup k d2 with
                | Some v' => pyval_eqb v v'
                | None => false
                end && members r
            end) d1
  | _, _ => false
  end.

(** [tuple(int(i) for i in vstring.split("."))] *)
Fixpoint ints (l : list string) : option (list Z) :=
  match l with
  | [] => Some []
  | x :: rest =>
      match Py.int x with
      | Some n => option_map (cons n) (ints rest)
      | None => None
      end
  end.

Definition version_string_to_tuple (vstring : string) : option (list Z) :=
  ints (Py.split "." vstring).

(** [output[output.rindex(" ") + 1 :]] *)
Definition after_last_space (output : string) : option string :=
  option_map (fun i => Py.slice_from (i + 1) output) (Py.rindex " " output).

(** [sorted] on strings, by insertion. *)
Fixpoint insert_sorted (x : string) (l : list string) : list string :=
  match l with
  | [] => [x]
  | y :: rest => if String.leb x y then x :: l else y :: insert_sorted x rest
  end.

Definition sorted (l : list string) : list string :=
  fold_right insert_sorted [] l.

(** The elements of a set built from a list: the order of a Python set is
    not fixed; the first occurrences are kept in the list's order. *)
Fixpoint set_of (l : list string) : list string :=
  match l with
  | [] => []
  | x :: rest => x :: filter (fun y => negb (String.eqb x y)) (set_of rest)
  end.

(** The first lines of [RAILInstallationError.__init__]: the message is made
    to start and end with a line feed. *)
Definition framed (message : string) : string :=
  let message := if Py.startswith "010" message then message else LF ++ message in
  if Py.endswith "010" message then message else message ++ LF.

(** ** The script, on a given machine *)

Section Script.

Variable m : Machine.

(** [colorize]; every style asked for is in [STYLES]. *)
Definition colorize (style_name text : string) : string :=
  if isatty m then
    match lookup style_name STYLES with
    | Some st => st ++ text ++ ESC ++ "[0m"
    | None => text
    end
  else text.

Definition RAIL_COLORIZED : string := colorize "highlight" "RAIL".

(** [raise RAILInstallationError(message, return_code)]: the constructor
    frames the message with line feeds, prints it and ends the process with
    [return_code]; the exception value keeps the framed message and the
    code. *)
Definition raise_RAILInstallationError {A} (message : string) (return_code : Z)
  : M A :=
  let message := framed message in
  print (colorize "error" message) ;;;
  raise (RAILInstallationError message return_code).

Definition is_some {A} (o : option A) : bool :=
  match o with Some _ => true | None => false end.

(** The text of the error [run_cmd] raises for a failed command. *)
Definition run_cmd_error_message (output : CompletedProcess) : string :=
  let error_message := "CLI command failed" in
  let error_message :=
    if is_some (stdout output) || is_some (stderr output) then
      let out := match stdout output with
                 | Some o => Py.strip o
                 | None => "No output from command"
                 end in
      let err := match stderr output with
                 | Some e => Py.strip e
                 | None => "No error from command"
                 end in
      error_message ++ ": " ++ out ++ LF ++ err
    else error_message in
  if negb (returncode output =? 127) then error_message ++ LF ++ ERROR_SPECS_MESSAGE
  else error_message.

(** [run_cmd(cmd, as_comment, **kwargs)] *)
Definition run_cmd (cmd : string) (kw : Kwargs) : M CompletedProcess :=
  let cmd := if as_comment kw then "# " ++ cmd else cmd in
  print ("`" ++ colorize "cmd" cmd ++ "`") ;;;
  emit (Ran cmd (capture_output kw)) ;;;
  let output := subprocess_run m cmd (capture_output kw) in
  if negb (returncode output =? 0) then
    raise_RAILInstallationError (run_cmd_error_message output) (returncode output)
  else ret output.

(** A validator may print and raise, it does not read the operator's lines. *)
Definition Validator : Type := string -> list Event -> outcome bool * list Event.

(** [check_env_name(name, existing_names)] *)
Definition check_env_name (name : string) (existing_names : list string)
  : list Event -> outcome bool * list Event :=
  fun lg =>
    if Py.mem name existing_names then
      match Py.format MESSAGE_ENV_EXISTS [("name", colorize "highlight" name)] with
      | Some text => (Return false, Printed text :: lg)
      | None => (Raise KeyError, lg)
      end
    else (Return true, lg).

(** The [while ask] loop of [request_input]: one round per line typed;
    [input] raises [EOFError] when no line is left. *)
Fixpoint request_input_loop (prompt_string : string) (options : list string)
    (allow_any : bool) (validator : option Validator)
    (lines : list string) (lg : list Event) {struct lines}
  : outcome string * Session :=
  let lg := Prompted prompt_string :: lg in
  match lines with
  | [] => (Raise EOFError, {| stdin := []; log := lg |})
  | result :: rest =>
      let default_validation :=
        (allow_any && negb (String.eqb result ""))
        || (negb allow_any && Py.mem result options) in
      match (match validator with
             | None => (Return true, lg)
             | Some v => v result lg
             end) with
      | (Raise e, lg') => (Raise e, {| stdin := rest; log := lg' |})
      | (Return extra_validation, lg') =>
          let ask := negb default_validation || negb extra_validation in
          if ask then
            request_input_loop prompt_string options allow_any validator rest lg'
          else (Return result, {| stdin := rest; log := lg' |})
      end
  end.

(** [request_input(prompt, options, allow_any, validator)] *)
Definition request_input (prompt : string) (options : list string)
    (allow_any : bool) (validator : option Validator) : M string :=
  if negb (isatty m) then
    message <- expect KeyError
                 (Py.format ERROR_NONINTERACTIVE_INPUT [("prompt", prompt)]) ;;
    raise_RAILInstallationError message 1
  else
    let options_string := Py.join "/" options in
    let prompt := colorize "question" prompt in
    let prompt_string :=
      if (0 <? List.length options)%nat
      then prompt ++ " (" ++ options_string ++ ") "
      else prompt ++ " " in
    fun s =>
      request_input_loop prompt_string options allow_any validator
        (stdin s) (log s).

End Script.

(** ** The installer *)

(** [Installer]: [env_name] has no value until a name is chosen. *)
Record Installer := {
  fetcher : string;
  dry_run : bool;
  verbose : bool;
  env_manager : option EnvironmentManager;
  env_manager_preinitialized : bool;
  env_name : option string;
  kernel : string;
  architecture : string
}.

(** [Installer(fetcher=..., dry_run=..., verbose=...)] on a machine whose
    [os.uname()] gave [kernel] and [architecture]. *)
Definition new_Installer (fetcher : string) (dry_run verbose : bool)
    (kernel architecture : string) : Installer :=
  {| fetcher := fetcher; dry_run := dry_run; verbose := verbose;
     env_manager := None; env_manager_preinitialized := false;
     env_name := None; kernel := kernel; architecture := architecture |}.

Definition set_env_manager (self : Installer) (v : option EnvironmentManager)
  : Installer :=
  {| fetcher := fetcher self; dry_run := dry_run self; verbose := verbose self;
     env_manager := v;
     env_manager_preinitialized := env_manager_preinitialized self;
     env_name := env_name self; kernel := kernel self;
     architecture := architecture self |}.

Definition set_env_manager_preinitialized (self : Installer) (v : bool)
  : Installer :=
  {| fetcher := fetcher self; dry_run := dry_run self; verbose := verbose self;
     env_manager := env_manager self;
     env_manager_preinitialized := v;
     env_name := env_name self; kernel := kernel self;
     architecture := architecture self |}.

Definition set_env_name (self : Installer) (v : string) : Installer :=
  {| fetcher := fetcher self; dry_run := dry_run self; verbose := verbose self;
     env_manager := env_manager self;
     env_manager_preinitialized := env_manager_preinitialized self;
     env_name := Some v; kernel := kernel self;
     architecture := architecture self |}.

(** The three arms of the [match] in [check_env_manager_version]: the
    version command, the rule that extracts the version from its output,
    and the required version. *)
Definition version_rule (executable : string)
  : option (string * (string -> option string) * string) :=
  if String.eqb executable "conda" then
    Some ("conda --version", after_last_space, "23.5.0")
  else if String.eqb executable "mamba" then
    Some ("conda --version", after_last_space, "23.5.0")
  else if String.eqb executable "micromamba" then
    Some (executable ++ " --version", fun output => Some output, "1.5.8")
  else None.

Section Methods.

Variable m : Machine.

(** [Installer.uname_convert]; a use case outside the four leaves the
    result unbound. *)
Definition uname_convert (self : Installer) (use_case : string)
  : M (string * string) :=
  if String.eqb use_case "conda" then
    ret (if String.eqb (kernel self) "Darwin" then "MacOSX" else "Linux",
         architecture self)
  else if String.eqb use_case "mamba" then
    ret (kernel self, architecture self)
  else if String.eqb use_case "micromamba" || String.eqb use_case "conda-lock" then
    ret (if String.eqb (kernel self) "Darwin" then "osx" else "linux",
         if String.eqb (architecture self) "x86_64" then "64" else "arm64")
  else raise UnboundLocalError.

(** [Installer.run_fetch_cmd] *)
Definition run_fetch_cmd (self : Installer) (url output_filename : string)
    (kw : Kwargs) : M CompletedProcess :=
  let cmd := fetcher self ++ " " ++ url in
  let cmd :=
    if String.eqb (fetcher self) "curl" then
      let cmd := cmd ++ " --location --output " ++ output_filename in
      if negb (verbose self) then cmd ++ " --progress-bar" else cmd
    else cmd in
  let cmd :=
    if String.eqb (fetcher self) "wget" then
      let cmd := cmd ++ " --output-document " ++ output_filename in
      if negb (verbose self) then cmd ++ " --quiet --show-progress" else cmd
    else cmd in
  run_cmd m cmd kw.

(** [Installer.run_env_manager_cmd] *)
Definition run_env_manager_cmd (self : Installer) (cmd : string) (kw : Kwargs)
  : M CompletedProcess :=
  manager <- expect AttributeError (env_manager self) ;;
  match activation_script manager with
  | None =>
      if which m (executable manager) then run_cmd m cmd kw
      else
        raise_RAILInstallationError m
          "Something went wrong finding/activating the Python virtual environment manager."
          1
  | Some script => run_cmd m (". " ++ script ++ " && " ++ cmd) kw
  end.

(** [Installer.run_in_env_cmd] *)
Definition run_in_env_cmd (self : Installer) (cmd : string) (kw : Kwargs)
  : M CompletedProcess :=
  manager <- expect AttributeError (env_manager self) ;;
  chosen <- expect AttributeError (env_name self) ;;
  run_env_manager_cmd self
    (executable manager ++ " run "
     ++ (if String.eqb (executable manager) "conda"
         then " --no-capture-output" else "")
     ++ " --name " ++ chosen ++ " " ++ cmd)
    kw.

(** [Installer.install_env_manager]; the directory is created and the
    installer removed without error. *)
Definition install_env_manager (self : Installer) (to_install : EnvironmentManager)
  : M Installer :=
  print_header ("Installing " ++ name to_install) ;;;
  ka <- uname_convert self (executable to_install) ;;
  template <- expect AttributeError (installer_link to_install) ;;
  installer_link <- expect KeyError
    (Py.format template [("kernel", fst ka); ("architecture", snd ka)]) ;;
  dir <- expect TypeError (directory to_install) ;;
  let installer_dir := expanduser (home m) dir in
  let installer_path := joinpath installer_dir (name to_install ++ "-installer.sh") in
  (if negb (dry_run self) then emit (Mkdir installer_dir) else ret tt) ;;;
  print ("Downloading " ++ name to_install ++ " installer") ;;;
  run_fetch_cmd self installer_link installer_path
    {| as_comment := dry_run self; capture_output := false |} ;;;
  print (LF ++ "Installing " ++ name to_install ++ " into "
         ++ colorize m "path" installer_dir ++ ", this may take up to 5 minutes") ;;;
  opts <- expect TypeError (installer_options to_install) ;;
  run_cmd m
    ("bash " ++ installer_path ++ " " ++ Py.join " " opts ++ " " ++ installer_dir)
    {| as_comment := dry_run self; capture_output := negb (verbose self) |} ;;;
  (if negb (dry_run self) then
     print (LF ++ "Removing " ++ name to_install ++ " installer") ;;;
     emit (Unlink installer_path)
   else ret tt) ;;;
  ret (set_env_manager self (Some to_install)).

(** The channels whose terms [setup_env_manager] accepts, one after the
    other. *)
Fixpoint accept_tos (self : Installer) (channels : list string) : M unit :=
  match channels with
  | [] => ret tt
  | channel :: rest =>
      run_env_manager_cmd self
        ("conda tos accept --override-channels --channel " ++ channel)
        {| as_comment := dry_run self; capture_output := false |} ;;;
      accept_tos self rest
  end.

(** [Installer.setup_env_manager] *)
Definition setup_env_manager (self : Installer) : M unit :=
  manager <- expect AttributeError (env_manager self) ;;
  print_header ("Initializing " ++ executable manager) ;;;
  if String.eqb (executable manager) "conda" then
    accept_tos self
      ["https://repo.anaconda.com/pkgs/main"; "https://repo.anaconda.com/pkgs/r"]
  else if String.eqb (executable manager) "mamba" then
    sh <- expect KeyError (environ_SHELL m) ;;
    let shell := path_stem sh in
    let cmd := "mamba shell init --shell " ++ shell in
    let cmd := if dry_run self && env_manager_preinitialized self
               then cmd ++ " --dry-run" else cmd in
    let as_comment := dry_run self && negb (env_manager_preinitialized self) in
    run_env_manager_cmd self cmd
      {| as_comment := as_comment; capture_output := false |} ;;;
    ret tt
  else ret tt.

(** [Installer.check_env_manager_version] *)
Definition check_env_manager_version (self : Installer) : M unit :=
  manager <- expect AttributeError (env_manager self) ;;
  print_header ("Verifying " ++ executable manager ++ " version") ;;;
  let fake_version := dry_run self && negb (env_manager_preinitialized self) in
  rule <- expect UnboundLocalError (version_rule (executable manager)) ;;
  let '(version_cmd, output_to_version, required_version_string) := rule in
  version_result <- run_env_manager_cmd self version_cmd
                      {| as_comment := fake_version; capture_output := true |} ;;
  if fake_version then ret tt
  else
    out <- expect AttributeError (stdout version_result) ;;
    present_version_string <- expect ValueError (output_to_version (Py.strip out)) ;;
    present <- expect ValueError (version_string_to_tuple present_version_string) ;;
    required <- expect ValueError (version_string_to_tuple required_version_string) ;;
    if Py.tuple_lt present required then
      message <- expect KeyError
        (Py.format ERROR_ENV_MANAGER_OUT_OF_DATE
           [("env_manager", executable manager);
            ("present", present_version_string);
            ("required", required_version_string)]) ;;
      raise_RAILInstallationError m message 1
    else ret tt.

(** The [for] loop of [find_env_manager]: the first manager that is on the
    search path or whose activation script exists is kept and the loop is
    left.  The second component is the loop variable after the loop. *)
Fixpoint find_env_manager_loop (self : Installer)
    (last_seen : option EnvironmentManager) (registry : list EnvironmentManager)
  : M (Installer * option EnvironmentManager) :=
  match registry with
  | [] => ret (self, last_seen)
  | candidate :: rest =>
      let in_path := which m (executable candidate) in
      let activation_script_exists :=
        match activation_script candidate with
        | None => false
        | Some script => path_exists m script
        end in
      if in_path || activation_script_exists then
        let self := set_env_manager self (Some candidate) in
        let self := if in_path then set_env_manager_preinitialized self true
                    else self in
        print ("Using " ++ name candidate ++ " ("
               ++ colorize m "cmd" (executable candidate) ++ ")") ;;;
        ret (self, Some candidate)
      else find_env_manager_loop self (Some candidate) rest
  end.

(** [str(x)] of an optional path inside a formatted text. *)
Definition str_of_path (p : option string) : string :=
  match p with
  | Some s => s
  | None => "None"
  end.

(** The test of the loop on one manager: on the search path, or with an
    activation script on disk. *)
Definition detectable (e : EnvironmentManager) : bool :=
  which m (executable e)
  || match activation_script e with
     | None => false
     | Some script => path_exists m script
     end.

(** [Installer.find_env_manager] *)
Definition find_env_manager (self : Installer) (name_to_install : option string)
  : M Installer :=
  let registry := ENV_MANAGER_INFO (home m) in
  print_header "Checking for a pre-installed Python virtual environment manager" ;;;
  found <- find_env_manager_loop self None registry ;;
  let '(self, loop_variable) := found in
  match env_manager self, name_to_install with
  | Some manager, Some requested =>
      error_message <- expect KeyError
        (Py.format ERROR_ENV_MANAGER_ALREADY_INSTALLED
           [("to_install", requested);
            ("already_installed", executable manager)]) ;;
      if negb (env_manager_preinitialized self) then
        seen <- expect UnboundLocalError loop_variable ;;
        hint <- expect KeyError
          (Py.format ERROR_ENV_MANAGER_EXISTS_WITHOUT_PATH
             [("env_manager", executable manager);
              ("activation_script_path", str_of_path (activation_script seen))]) ;;
        raise_RAILInstallationError m (error_message ++ hint) 1
      else raise_RAILInstallationError m error_message 1
  | _, _ =>
      self <-
        match env_manager self with
        | None =>
            let executables := set_of (map executable registry) in
            let executable_string :=
              Py.join "/" (map (colorize m "cmd") executables) in
            text <- expect KeyError
              (Py.format MESSAGE_NO_ENV_MANAGER_FOUND
                 [("executables", executable_string)]) ;;
            print text ;;;
            chosen <-
              match name_to_install with
              | Some requested => ret requested
              | None =>
                  request_input m
                    "Which Python environment manager should be installed?"
                    (sorted (map name (filter installable registry)))
                    false None
              end ;;
            to_install <- expect IndexError
              (hd_error (filter (fun e => String.eqb (name e) chosen) registry)) ;;
            install_env_manager self to_install
        | Some _ => ret self
        end ;;
      setup_env_manager self ;;;
      check_env_manager_version self ;;;
      ret self
  end.

End Methods.

(** A selection of packages: a word such as [all], or a list of packages. *)
Inductive selection :=
| Word (w : string)
| Packages (l : list string).

Definition MESSAGE_POST_INSTALL_HEAD : string :=
  LF ++ "To use the newly installed environment manager {env_manager}, restart your terminal"
  ++ LF ++ "session or activate your shell's init script (with `{source_cmd}` or similar)."
  ++ LF ++ LF ++ "To enter the {env_name} virtual environment, run: `{activation_cmd}`"
  ++ LF ++ LF ++ "To install additional packages:"
  ++ LF ++ "- From conda-forge (link) `{packages_conda_cmd}`"
  ++ LF ++ "- From PyPI (link) `{packages_pip_cmd}`"
  ++ LF ++ LF ++ "In the environment you also have access to the rail cli." ++ LF.

Section Orchestrator.

Variable m : Machine.

Definition MESSAGE_POST_INSTALL : string :=
  MESSAGE_POST_INSTALL_HEAD
  ++ "Run `" ++ colorize m "cmd" "rail --help"
  ++ "` and visit the documentation [link].".

Definition lift {A} (w : list Event -> outcome A * list Event) : M A :=
  fun s => let '(o, lg) := w (log s) in (o, {| stdin := stdin s; log := lg |}).

(** [doc[key]] on a decoded document. *)
Definition subscript (doc : pyval) (key : string) : M pyval :=
  match doc with
  | PDict items => expect KeyError (lookup key items)
  | _ => raise TypeError
  end.

(** [for e in v]: the elements of a list, the characters of a string, the
    keys of a dictionary. *)
Definition iterate (v : pyval) : M (list pyval) :=
  match v with
  | PList l => ret l
  | PStr s => ret (map (fun c => PStr (String c EmptyString)) (list_ascii_of_string s))
  | PDict items => ret (map (fun kv => PStr (fst kv)) items)
  | PScalar _ => raise TypeError
  end.

(** [[str(Path(e).stem) for e in existing_prefixes]] *)
Fixpoint stems (prefixes : list pyval) : M (list string) :=
  match prefixes with
  | [] => ret []
  | PStr e :: rest => names <- stems rest ;; ret (path_stem e :: names)
  | _ :: _ => raise TypeError
  end.

(** The first part of [choose_env_name]: the names taken as already in use.
    Environments are listed when the manager is on the search path, and
    none is assumed otherwise. *)
Definition existing_environment_names (self : Installer) : M (list string) :=
  if negb (env_manager_preinitialized self) then ret [] else
  manager <- expect AttributeError (env_manager self) ;;
  env_list_output <- run_cmd m (executable manager ++ " env list --json")
                       {| as_comment := false; capture_output := true |} ;;
  listed <- expect TypeError (stdout env_list_output) ;;
  doc <- expect JSONDecodeError (json_loads m listed) ;;
  existing_prefixes <- subscript doc "envs" ;;
  base_output <- run_cmd m (executable manager ++ " info --base --json")
                   {| as_comment := false; capture_output := true |} ;;
  base_text <- expect TypeError (stdout base_output) ;;
  base_doc <- expect JSONDecodeError (json_loads m base_text) ;;
  values <- match base_doc with
            | PDict items => ret (map snd items)
            | _ => raise AttributeError
            end ;;
  base_prefix <- expect IndexError (hd_error values) ;;
  elements <- iterate existing_prefixes ;;
  let existing_prefixes :=
    filter (fun e => negb (pyval_eqb e base_prefix)) elements in
  existing_names <- stems existing_prefixes ;;
  (if (0 <? List.length existing_names)%nat then
     print ("Existing environments: " ++ Py.join ", " existing_names)
   else ret tt) ;;;
  ret existing_names.

(** [Installer.choose_env_name] *)
Definition choose_env_name (self : Installer) (cli_name : option string)
  : M Installer :=
  print_header "Getting virtual environment name" ;;;
  existing_names <- existing_environment_names self ;;
  match cli_name with
  | Some supplied =>
      ok <- lift (check_env_name m supplied existing_names) ;;
      if ok then
        print ("Using supplied environment name "
               ++ colorize m "highlight" supplied) ;;;
        ret (set_env_name self supplied)
      else
        raise_RAILInstallationError m
          ("Supplied environment name " ++ supplied ++ " already exists") 1
  | None =>
      chosen <- request_input m
        ("Name of new virtual environment to install " ++ RAIL_COLORIZED m ++ " in:")
        [] true
        (Some (fun candidate => check_env_name m candidate existing_names)) ;;
      ret (set_env_name self chosen)
  end.


(** The comprehension of [choose_algorithms]: one question per package. *)
Fixpoint ask_each (algos : list string) : M (list string) :=
  match algos with
  | [] => ret []
  | algo :: rest =>
      answer <- request_input m ("Install " ++ algo ++ "?") ["y"; "n"] false None ;;
      chosen <- ask_each rest ;;
      ret (if String.eqb answer "y" then algo :: chosen else chosen)
  end.

(** [choose_algorithms] *)
Definition choose_algorithms (cli_selection : option selection) : M (list string) :=
  cli_selection <-
    match cli_selection with
    | None =>
        print ("Available " ++ RAIL_COLORIZED m ++ " algorithms:" ++ LF
               ++ String "009" EmptyString
               ++ Py.join (LF ++ String "009" EmptyString) EXTRA_RAIL_PACKAGES) ;;;
        answer <- request_input m "Which algorithms should be installed?"
                    ["all"; "none"; "select"] false None ;;
        ret (Word answer)
    | Some sel => ret sel
    end ;;
  match cli_selection with
  | Word w =>
      if String.eqb w "all" then ret EXTRA_RAIL_PACKAGES
      else if String.eqb w "none" then ret []
      else ask_each EXTRA_RAIL_PACKAGES
  | Packages l => ret l
  end.

(** [choose_additional_dependencies] *)
Definition choose_additional_dependencies (cli_selection : option string)
  : M (list string) :=
  let packages := ["jupyter"; "seaborn"; "corner"; "matplotlib"] in
  match cli_selection with
  | Some w => ret (if String.eqb w "yes" then packages else [])
  | None =>
      answer <- request_input m
        ("Install additional packages: " ++ Py.join ", " packages ++ "?")
        ["y"; "n"] false None ;;
      ret (if String.eqb answer "y" then packages else [])
  end.

(** [Installer.pip_install_package] *)
Definition pip_install_package (self : Installer) (package : string) : M unit :=
  let quiet := if verbose self then "" else " --quiet" in
  run_in_env_cmd m self ("pip install " ++ package ++ quiet)
    {| as_comment := dry_run self; capture_output := false |} ;;;
  ret tt.

Fixpoint pip_install_each (self : Installer) (packages : list string) : M unit :=
  match packages with
  | [] => ret tt
  | package :: rest =>
      pip_install_package self package ;;; pip_install_each self rest
  end.

(** [Installer.pip_install] *)
Definition pip_install (self : Installer) (rail_selection : option selection)
    (devtool_selection : option string) : M unit :=
  print_header ("Adding " ++ RAIL_COLORIZED m ++ " packages to environment") ;;;
  algorithms <- choose_algorithms rail_selection ;;
  let rail_packages := "pz-rail" :: algorithms in
  grouped_packages <- choose_additional_dependencies devtool_selection ;;
  print ("Installing `" ++ colorize m "cmd" "pip" ++ "` packages") ;;;
  run_in_env_cmd m self "python -m ensurepip --upgrade"
    {| as_comment := dry_run self; capture_output := false |} ;;;
  (if (0 <? List.length grouped_packages)%nat
   then pip_install_package self (Py.join " " grouped_packages)
   else ret tt) ;;;
  pip_install_each self rail_packages.

(** [Installer.post_install] *)
Definition post_install (self : Installer) (clean : bool) : M unit :=
  (if clean then
     run_in_env_cmd m self "conda clean --all --yes" no_kwargs ;;;
     run_in_env_cmd m self "pip cache purge" no_kwargs ;;;
     ret tt
   else ret tt) ;;;
  print_header (colorize m "highlight" "Installation complete!") ;;;
  manager <- expect AttributeError (env_manager self) ;;
  chosen <- expect AttributeError (env_name self) ;;
  text <- expect KeyError
    (Py.format MESSAGE_POST_INSTALL
       [("env_manager", colorize m "cmd" (executable manager));
        ("source_cmd", colorize m "cmd" "source ~/.bashrc");
        ("env_name", colorize m "highlight" chosen);
        ("activation_cmd",
         colorize m "cmd" (executable manager ++ " activate " ++ chosen));
        ("packages_conda_cmd",
         colorize m "cmd" (executable manager ++ " install <package name>"));
        ("packages_pip_cmd", colorize m "cmd" "pip install <package name>")]) ;;
  print text.


End Orchestrator.

(** ** Machines and sessions used as concrete inputs *)

(** A shell in which every command succeeds and prints [text]. *)
Definition quiet_shell (text : string) : string -> bool -> CompletedProcess :=
  fun _ capture =>
    {| returncode := 0;
       stdout := if capture then Some text else None;
       stderr := if capture then Some "" else None |}.

(** A machine with the given search path, files and shell, attached to a
    terminal, whose home directory is [/home/u]. *)
Definition machine (on_path on_disk : list string)
    (shell : string -> bool -> CompletedProcess) : Machine :=
  {| which := fun exe => Py.mem exe on_path;
     path_exists := fun p => Py.mem p on_disk;
     isatty := true;
     home := "/home/u";
     environ_SHELL := Some "/bin/bash";
     subprocess_run := shell;
     json_loads := fun _ => None |}.

Definition session (lines : list string) : Session :=
  {| stdin := lines; log := [] |}.

Definition fresh (dry : bool) : Installer :=
  new_Installer "curl" dry false "Linux" "x86_64".

(** The entries of the registry for the home directory [/home/u]. *)
Definition entry (n : nat) : EnvironmentManager :=
  nth n (ENV_MANAGER_INFO "/home/u")
    (mkEnvironmentManager "/home/u" "" false "" None None None).

Definition micromamba : EnvironmentManager := entry 0.
Definition mamba : EnvironmentManager := entry 1.
Definition miniconda : EnvironmentManager := entry 2.
Definition anaconda : EnvironmentManager := entry 3.

(** A shell in which a line that is a comment prints nothing, and every
    other command prints [text]; both succeed. *)
Definition reporting_shell (text : string) : string -> bool -> CompletedProcess :=
  fun cmd capture =>
    if prefix "#" cmd then quiet_shell "" cmd capture
    else quiet_shell text cmd capture.

(** A machine with [conda] on the search path, installed at [/opt/conda],
    whose environments have the given prefixes.  The two queries of
    [choose_env_name] print documents that decode to the list of prefixes
    and to the base prefix. *)
Definition conda_machine (prefixes : list string) : Machine :=
  {| which := fun exe => String.eqb exe "conda";
     path_exists := fun _ => false;
     isatty := true;
     home := "/home/u";
     environ_SHELL := Some "/bin/bash";
     subprocess_run := fun cmd capture =>
       quiet_shell
         (if String.eqb cmd "conda env list --json" then "envs document"
          else if String.eqb cmd "conda info --base --json" then "base document"
          else "")
         cmd capture;
     json_loads := fun text =>
       if String.eqb text "envs document" then
         Some (PDict [("envs", PList (map PStr ("/opt/conda" :: prefixes)))])
       else if String.eqb text "base document" then
         Some (PDict [("root_prefix", PStr "/opt/conda")])
       else None |}.

(** A version field of [n] digits. *)
Definition long_field (n : nat) : string :=
  string_of_list_ascii (List.repeat "1"%char n).

(** An installer after the detection of [manager]. *)
Definition detected (manager : EnvironmentManager) (in_path dry : bool)
  : Installer :=
  set_env_manager_preinitialized (set_env_manager (fresh dry) (Some manager))
    in_path.

(** ** The checks made before the installer is built *)

Definition ERROR_MISSING_PREREQUISITES : string :=
  LF ++ "Missing prerequisite(s): {missing}"
  ++ LF ++ LF
  ++ "See the RAIL documentation page on required programs for more information."
  ++ LF.

Definition ERROR_NO_CLANG : string :=
  LF ++ "Only GNU versions of C compilers are supported, but `{version_command}` found an LLVM"
  ++ LF ++ "(clang) compiler."
  ++ LF ++ LF
  ++ "Install the GNU versions (e.g., with Homebrew on MacOS), and set the C compiler"
  ++ LF ++ "environment variable(s) accordingly before re-running the script."
  ++ LF ++ LF ++ "`CC=/path/to/gnu/gcc CXX=/path/to/gnu/g++ ./install-rail.py`" ++ LF.

Section Preflight.

Variable m : Machine.

(** [os.environ.get] at [CC] and at [CXX]. *)
Variables environ_CC environ_CXX : option string.

(** The loop of [check_requirements] over the compilers. *)
Fixpoint check_compilers (compilers : list string) : M unit :=
  match compilers with
  | [] => ret tt
  | compiler :: rest =>
      let version_command := compiler ++ " --version" in
      result <- run_cmd m version_command
                  {| as_comment := false; capture_output := true |} ;;
      version_output <- expect TypeError (stdout result) ;;
      (if Py.contains "clang" version_output then
         message <- expect KeyError
           (Py.format ERROR_NO_CLANG [("version_command", version_command)]) ;;
         raise_RAILInstallationError m message 1
       else ret tt) ;;;
      check_compilers rest
  end.

(** [check_requirements] *)
Definition check_requirements : M string :=
  print_header "Checking installation requirements" ;;;
  let required := ["bash"; "gcc"; "gfortran"; "g++"; "make"] in
  let missing := filter (fun cmd => negb (which m cmd)) required in
  let alternatives := ["curl"; "wget"] in
  let missing_fetcher := map (fun cmd => negb (which m cmd)) alternatives in
  let missing :=
    (if forallb (fun b => b) missing_fetcher
     then missing ++ [Py.join " or " alternatives] else missing)%list in
  (if (0 <? List.length missing)%nat then
     message <- expect KeyError
       (Py.format ERROR_MISSING_PREREQUISITES
          [("missing", Py.join ", " missing)]) ;;
     raise_RAILInstallationError m message 127
   else ret tt) ;;;
  check_compilers
    [match environ_CC with Some c => c | None => "gcc" end;
     match environ_CXX with Some c => c | None => "g++" end] ;;;
  ret (if which m "wget" then "wget" else "curl").

(** [check_algorithms_selection] *)
Definition check_algorithms_selection (cli_selection : option (list string))
  : M (option selection) :=
  match cli_selection with
  | None => ret None
  | Some l =>
      if (List.length l =? 1)%nat && Py.mem (hd "" l) ["all"; "none"] then
        ret (Some (Word (hd "" l)))
      else
        let selections_are_invalid :=
          map (fun s => negb (Py.mem s EXTRA_RAIL_PACKAGES)) l in
        if existsb (fun b => b) selections_are_invalid then
          let algos_string :=
            Py.join (LF ++ String "009" EmptyString) EXTRA_RAIL_PACKAGES in
          raise_RAILInstallationError m
            ("Invalid selection for RAIL packages. See the help text for valid options. Available RAIL packages:"
             ++ LF ++ String "009" EmptyString ++ algos_string)
            1
        else ret (Some (Packages l))
  end.

End Preflight.

(** ** Reading the log *)


(** The directories made, the commands run and the files removed, oldest
    first. *)
Fixpoint actions (l : list Event) : list Event :=
  match l with
  | [] => []
  | Printed _ :: rest | Header _ :: rest | Prompted _ :: rest => actions rest
  | e :: rest => (actions rest ++ [e])%list
  end.




(** The line the shell receives for [cmd] run in the environment [chosen]
    of [manager] by [run_in_env_cmd]. *)
Definition shown_in_env (manager : EnvironmentManager) (chosen : string)
    (comment : bool) (cmd : string) : string :=
  (if comment then "# " else "")
  ++ match activation_script manager with
     | Some script => ". " ++ script ++ " && "
     | None => ""
     end
  ++ executable manager ++ " run "
  ++ (if String.eqb (executable manager) "conda" then " --no-capture-output" else "")
  ++ " --name " ++ chosen ++ " " ++ cmd.

(** * Properties *)

(** ** The built-ins on examples *)

Example split_version : Py.split "." "2.10.0" = ["2"; "10"; "0"].
Proof. reflexivity. Qed.

Example int_examples :
  Py.int "10" = Some 10 /\ Py.int " 7 " = Some 7 /\ Py.int "" = None
  /\ Py.int "1_0" = Some 10 /\ Py.int "1__0" = None /\ Py.int "-3" = Some (-3)
  /\ Py.int "0rc1" = None.
Proof. repeat split; reflexivity. Qed.

(** [int] and [strip] do not agree on white space: the separator U+001C is
    removed by [strip] and refused by [int], the no-break space U+00A0 is
    skipped by both. *)
Example int_white_space :
  Py.strip (String "028" "0") = "0" /\ Py.int (String "028" "0") = None
  /\ Py.int ("0" ++ String "031" "") = None
  /\ Py.int (String "133" ("0" ++ String "160" "")) = Some 0
  /\ Py.int ("+ 1") = None /\ Py.int (String "009" " +1 " ++ LF) = Some 1.
Proof. repeat split; reflexivity. Qed.

(** A version whose field carries such a separator has no tuple, although
    [strip] would clean the field. *)
Example version_with_separator :
  version_string_to_tuple ("23." ++ String "028" "5") = None
  /\ version_string_to_tuple ("23.5." ++ String "028" "0") = None
  /\ version_string_to_tuple "23.5.0" = Some [23; 5; 0].
Proof. repeat split; reflexivity. Qed.

(** A literal has at most 4300 digits, underscores not counted. *)
Example int_digit_limit :
  Py.int (long_field 4300) <> None /\ Py.int (long_field 4301) = None
  /\ Py.int ("00" ++ long_field 4299) = None.
Proof. repeat split; vm_compute; congruence. Qed.

Example strip_example : Py.strip ("  conda 23.5.0" ++ LF) = "conda 23.5.0".
Proof. reflexivity. Qed.

Example format_example :
  Py.format "a {x} b {y}" [("x", "1"); ("y", "2")] = Some "a 1 b 2".
Proof. reflexivity. Qed.

(** ** Unfolding the monad *)



(** ** C1: detection follows the declared order *)

Lemma find_env_manager_loop_first m self seen pre e post s :
  (forall x, In x pre -> detectable m x = false) ->
  detectable m e = true ->
  exists s',
    find_env_manager_loop m self seen (pre ++ e :: post)%list s
    = (Return
         (if which m (executable e)
          then set_env_manager_preinitialized (set_env_manager self (Some e)) true
          else set_env_manager self (Some e),
          Some e), s')
    /\ stdin s' = stdin s
    /\ commands (log s') = commands (log s).
Proof.
  intros Hpre He. revert seen.
  induction pre as [|x pre IH]; intros seen; simpl.
  - unfold detectable in He. rewrite He.
    eexists. split; [reflexivity|]. split; reflexivity.
  - assert (Hx : detectable m x = false) by (apply Hpre; left; reflexivity).
    unfold detectable in Hx. rewrite Hx.
    apply IH. intros y Hy. apply Hpre. right. exact Hy.
Qed.

Lemma find_env_manager_loop_none m self seen registry s :
  (forall x, In x registry -> detectable m x = false) ->
  exists loop_variable,
    find_env_manager_loop m self seen registry s
    = (Return (self, loop_variable), s).
Proof.
  revert seen. induction registry as [|x rest IH]; intros seen Hall.
  - eexists. reflexivity.
  - assert (Hx : detectable m x = false) by (apply Hall; left; reflexivity).
    cbn [find_env_manager_loop]. unfold detectable in Hx. rewrite Hx.
    apply IH. intros y Hy. apply Hall. right. exact Hy.
Qed.

(** The first detectable manager of a list, with what comes before it. *)
Lemma find_detectable_split m registry e :
  find (detectable m) registry = Some e ->
  exists pre post,
    registry = (pre ++ e :: post)%list
    /\ (forall x, In x pre -> detectable m x = false)
    /\ detectable m e = true.
Proof.
  induction registry as [|x rest IH]; simpl; [discriminate|].
  destruct (detectable m x) eqn:Hx.
  - intros H. injection H as <-. exists [], rest. repeat split; auto.
    intros y [].
  - intros H. destruct (IH H) as (pre & post & -> & Hpre & He).
    exists (x :: pre), post. repeat split; auto.
    intros y [<-|Hy]; auto.
Qed.

(** The loop on a registry whose first detectable manager is [e]: the
    installer it leaves, the loop variable, and the one line it prints. *)
Lemma find_env_manager_loop_selects m self seen pre e post s :
  (forall x, In x pre -> detectable m x = false) ->
  detectable m e = true ->
  find_env_manager_loop m self seen (pre ++ e :: post)%list s
  = (Return
       (if which m (executable e)
        then set_env_manager_preinitialized (set_env_manager self (Some e)) true
        else set_env_manager self (Some e),
        Some e),
     {| stdin := stdin s;
        log := Printed ("Using " ++ name e ++ " ("
                        ++ colorize m "cmd" (executable e) ++ ")") :: log s |}).
Proof.
  intros Hpre He. revert seen.
  induction pre as [|x pre IH]; intros seen; simpl.
  - unfold detectable in He. rewrite He. reflexivity.
  - assert (Hx : detectable m x = false) by (apply Hpre; left; reflexivity).
    unfold detectable in Hx. rewrite Hx.
    apply IH. intros y Hy. apply Hpre. right. exact Hy.
Qed.

(** C1. Whatever managers can be detected together, [find_env_manager],
    called on a new installer, selects the one that comes first in
    [ENV_MANAGER_INFO]: if every manager declared before [e] is neither on
    the search path nor has its activation script on disk, and [e] is
    detectable, then the loop keeps [e], and [env_manager_preinitialized] is
    true exactly when [e]'s executable is on the search path.  With no
    manager asked for, [find_env_manager] goes on with the set-up and the
    version check of that installer, and the installer it returns is that
    one; whatever is asked for, an installer it returns has [e] as its
    manager and the flag as said.  Nothing but the declared order and what
    is detectable enters the selection. *)
Theorem find_env_manager_first_declared m f d v k a s pre e post :
  ENV_MANAGER_INFO (home m) = (pre ++ e :: post)%list ->
  (forall x, In x pre -> detectable m x = false) ->
  detectable m e = true ->
  let self := new_Installer f d v k a in
  let selected :=
    if which m (executable e)
    then set_env_manager_preinitialized (set_env_manager self (Some e)) true
    else set_env_manager self (Some e) in
  let shown :=
    [Printed ("Using " ++ name e ++ " (" ++ colorize m "cmd" (executable e)
              ++ ")");
     Header "Checking for a pre-installed Python virtual environment manager"] in
  (exists s',
     find_env_manager_loop m self None (ENV_MANAGER_INFO (home m)) s
     = (Return (selected, Some e), s'))
  /\ env_manager selected = Some e
  /\ (env_manager_preinitialized selected = true
      <-> which m (executable e) = true)
  /\ find (detectable m) (ENV_MANAGER_INFO (home m)) = Some e
  /\ find_env_manager m self None s
     = (setup_env_manager m selected ;;;
        check_env_manager_version m selected ;;;
        ret selected)
         {| stdin := stdin s; log := (shown ++ log s)%list |}
  /\ (forall name_to_install r s',
        find_env_manager m self name_to_install s = (Return r, s') ->
        name_to_install = None
        /\ r = selected
        /\ env_manager r = Some e
        /\ (env_manager_preinitialized r = true
            <-> which m (executable e) = true)).
Proof.
  intros Hreg Hpre He self selected shown.
  assert (Hmanager : env_manager selected = Some e)
    by (unfold selected; destruct (which m (executable e)); reflexivity).
  assert (Hflag : env_manager_preinitialized selected = true
                  <-> which m (executable e) = true).
  { unfold selected. destruct (which m (executable e)); simpl; split; auto;
      discriminate. }
  assert (Hrun : forall name_to_install,
            find_env_manager m self name_to_install s
            = match name_to_install with
              | Some requested =>
                  (error_message <- expect KeyError
                     (Py.format ERROR_ENV_MANAGER_ALREADY_INSTALLED
                        [("to_install", requested);
                         ("already_installed", executable e)]) ;;
                   if negb (env_manager_preinitialized selected) then
                     hint <- expect KeyError
                       (Py.format ERROR_ENV_MANAGER_EXISTS_WITHOUT_PATH
                          [("env_manager", executable e);
                           ("activation_script_path",
                            str_of_path (activation_script e))]) ;;
                     raise_RAILInstallationError m (error_message ++ hint) 1
                   else raise_RAILInstallationError m error_message 1)
                    {| stdin := stdin s; log := (shown ++ log s)%list |}
              | None =>
                  (setup_env_manager m selected ;;;
                   check_env_manager_version m selected ;;;
                   ret selected)
                    {| stdin := stdin s; log := (shown ++ log s)%list |}
              end).
  { intros name_to_install. unfold find_env_manager. cbv zeta. rewrite Hreg.
    unfold bind at 1. unfold print_header at 1. unfold emit at 1.
    unfold bind at 1.
    rewrite (find_env_manager_loop_selects m self None pre e post _ Hpre He).
    fold selected. cbn [stdin log]. rewrite Hmanager.
    destruct name_to_install as [requested|]; [|reflexivity].
    cbv [bind ret raise expect].
    destruct (Py.format ERROR_ENV_MANAGER_ALREADY_INSTALLED _); [|reflexivity].
    destruct (negb (env_manager_preinitialized selected)); [|reflexivity].
    destruct (Py.format ERROR_ENV_MANAGER_EXISTS_WITHOUT_PATH _); reflexivity. }
  split.
  { rewrite Hreg. eexists.
    apply (find_env_manager_loop_selects m self None pre e post s Hpre He). }
  split; [exact Hmanager|]. split; [exact Hflag|]. split.
  { rewrite Hreg. clear Hrun Hreg. induction pre as [|x pre IH]; simpl.
    - rewrite He. reflexivity.
    - rewrite (Hpre x (or_introl eq_refl)). apply IH.
      intros y Hy. apply Hpre. right. exact Hy. }
  split; [exact (Hrun None)|].
  intros name_to_install r s' Hret. rewrite Hrun in Hret.
  destruct name_to_install as [requested|].
  - exfalso. revert Hret.
    cbv [bind ret raise expect raise_RAILInstallationError].
    destruct (Py.format ERROR_ENV_MANAGER_ALREADY_INSTALLED _); [|discriminate].
    destruct (negb (env_manager_preinitialized selected)); [|discriminate].
    destruct (Py.format ERROR_ENV_MANAGER_EXISTS_WITHOUT_PATH _); discriminate.
  - split; [reflexivity|].
    assert (Hr : r = selected).
    { revert Hret. unfold bind.
      destruct (setup_env_manager m selected _) as [[u1|x1] s1];
        [|discriminate].
      destruct (check_env_manager_version m selected s1) as [[u2|x2] s2];
        [|discriminate].
      unfold ret. intros Hret. injection Hret as <- _. reflexivity. }
    subst r. auto.
Qed.

(** A machine with [conda] on the search path and the activation script of
    [mamba] on disk, whose manager reports version 24.1.2: [mamba] is
    declared before the two managers that run [conda]; it is the one
    selected, found through its script, and the one [find_env_manager]
    returns with. *)
Lemma find_env_manager_first_declared_witness :
  let m := machine ["conda"] ["/home/u/miniforge3/bin/activate"]
             (quiet_shell "conda 24.1.2") in
  exists r,
    fst (find_env_manager m (fresh false) None (session [])) = Return r
    /\ env_manager r
       = Some (mkEnvironmentManager "/home/u" "mamba" true ""
                 (Some "~/miniforge3")
                 (Some "https://github.com/conda-forge/miniforge/releases/latest/download/Miniforge3-{kernel}-{architecture}.sh")
                 (Some ["-b"; "-u"; "-p"]))
    /\ env_manager_preinitialized r = false.
Proof.
  intros m.
  destruct (find_env_manager_first_declared m "curl" false false "Linux" "x86_64"
              (session [])
              [mkEnvironmentManager "/home/u" "micromamba" false "" None None None]
              (mkEnvironmentManager "/home/u" "mamba" true ""
                 (Some "~/miniforge3")
                 (Some "https://github.com/conda-forge/miniforge/releases/latest/download/Miniforge3-{kernel}-{architecture}.sh")
                 (Some ["-b"; "-u"; "-p"]))
              [mkEnvironmentManager "/home/u" "miniconda" true "conda"
                 (Some "~/miniconda3")
                 (Some "https://repo.anaconda.com/miniconda/Miniconda3-latest-{kernel}-{architecture}.sh")
                 (Some ["-b"; "-u"; "-c"; "-p"]);
               mkEnvironmentManager "/home/u" "anaconda" false "conda"
                 (Some "~/anaconda3") None None])
    as (_ & _ & _ & _ & _ & Hreturned).
  - reflexivity.
  - intros x [<-|[]]. reflexivity.
  - reflexivity.
  - destruct (find_env_manager m (fresh false) None (session []))
      as [[r|x] s'] eqn:Hrun; [|vm_compute in Hrun; discriminate Hrun].
    destruct (Hreturned None r s' Hrun) as (_ & _ & Hmanager & Hflag).
    exists r. split; [reflexivity|]. split; [exact Hmanager|].
    destruct (env_manager_preinitialized r); [|reflexivity].
    destruct Hflag as [Hflag _]. specialize (Hflag eq_refl). discriminate Hflag.
Defined.

(** ** C4: commands run through the manager *)

Ltac run_monad :=
  cbv [bind ret raise expect print print_header emit
       raise_RAILInstallationError fst snd stdin log].



(** ** C7: the message of a failed command *)

Lemma append_assoc (a b c : string) : (a ++ b) ++ c = a ++ b ++ c.
Proof. induction a as [|x a IH]; simpl; [reflexivity | now rewrite IH]. Qed.

Lemma append_empty_r (a : string) : a ++ "" = a.
Proof. induction a as [|x a IH]; simpl; [reflexivity | now rewrite IH]. Qed.

(** A command that fails with neither stream captured: the message holds
    neither the text a captured stream would have given nor the placeholder
    of a stream that was not captured. *)
Lemma run_cmd_message_without_streams :
  let m := machine [] [] (fun _ _ => {| returncode := 1; stdout := None;
                                        stderr := None |}) in
  let message := LF ++ "CLI command failed" ++ LF ++ ERROR_SPECS_MESSAGE in
  fst (run_cmd m "conda env create" no_kwargs (session []))
  = Raise (RAILInstallationError message 1)
  /\ Py.contains "No output from command" message = false
  /\ Py.contains "No error from command" message = false.
Proof.
  intros m message. repeat split; vm_compute; reflexivity.
Qed.

(** C7, as the code has it.  A command that returns a code other than zero
    ends [run_cmd] in a [RAILInstallationError] that carries this code.  Its
    message is [CLI command failed]; then, when at least one of the two
    streams was captured, the stripped standard output and the stripped
    standard error, each replaced by its placeholder when it alone was not
    captured, and nothing when neither was captured; then the hint on the
    machine's resources exactly when the code is not 127. *)
Theorem run_cmd_failure_message m cmd kw s :
  let shown := if as_comment kw then "# " ++ cmd else cmd in
  let output := subprocess_run m shown (capture_output kw) in
  let streams :=
    match stdout output, stderr output with
    | None, None => ""
    | Some o, Some e => ": " ++ Py.strip o ++ LF ++ Py.strip e
    | Some o, None => ": " ++ Py.strip o ++ LF ++ "No error from command"
    | None, Some e => ": " ++ "No output from command" ++ LF ++ Py.strip e
    end in
  let hint :=
    if returncode output =? 127 then "" else LF ++ ERROR_SPECS_MESSAGE in
  returncode output <> 0 ->
  exists s',
    run_cmd m cmd kw s
    = (Raise (RAILInstallationError
                (framed ("CLI command failed" ++ streams ++ hint))
                (returncode output)), s')
    /\ commands (log s') = (commands (log s) ++ [shown])%list.
Proof.
  intros shown output streams hint Hrc.
  unfold run_cmd. fold shown. fold output. run_monad.
  apply Z.eqb_neq in Hrc. rewrite Hrc. cbn [negb].
  eexists. split.
  - do 3 f_equal. unfold run_cmd_error_message, streams, hint.
    destruct (stdout output) as [o|], (stderr output) as [e|];
      destruct (returncode output =? 127); cbn [is_some orb negb];
      repeat rewrite append_assoc; repeat rewrite append_empty_r; reflexivity.
  - reflexivity.
Qed.

(** A command that is not found (code 127) with both streams captured, on
    a machine whose shell answers every command so. *)
Lemma run_cmd_failure_message_witness :
  let m := machine [] []
             (fun _ _ => {| returncode := 127; stdout := Some "";
                            stderr := Some " sh: 1: conda: not found " |}) in
  exists s',
    run_cmd m "conda --version"
      {| as_comment := false; capture_output := true |} (session [])
    = (Raise (RAILInstallationError
                (LF ++ "CLI command failed: " ++ LF
                 ++ "sh: 1: conda: not found" ++ LF)
                127), s').
Proof.
  intros m.
  destruct (run_cmd_failure_message m "conda --version"
              {| as_comment := false; capture_output := true |} (session []))
    as (s' & H & _).
  - discriminate.
  - exists s'. exact H.
Defined.

(** ** C6 and C10: what [request_input] returns, and when it cannot *)

Lemma mem_In (x : string) (l : list string) : Py.mem x l = true <-> In x l.
Proof.
  unfold Py.mem. rewrite existsb_exists. split.
  - intros (y & Hy & He). apply String.eqb_eq in He. now subst.
  - intros H. exists x. split; [exact H | apply String.eqb_refl].
Qed.

(** A value returned by the loop passed both tests on the round it was
    typed. *)
Lemma request_input_loop_accepts ps options allow_any validator lines :
  forall lg v s',
    request_input_loop ps options allow_any validator lines lg = (Return v, s') ->
    ((allow_any && negb (String.eqb v "")) || (negb allow_any && Py.mem v options)
     = true)
    /\ (forall check, validator = Some check ->
                      exists lg0 lg1, check v lg0 = (Return true, lg1)).
Proof.
  induction lines as [|line rest IH]; intros lg v s'; cbn [request_input_loop].
  - discriminate.
  - destruct validator as [check|].
    + destruct (check line (Prompted ps :: lg)) as [[extra|e] lg'] eqn:Hc;
        [|discriminate].
      destruct ((allow_any && negb (String.eqb line ""))
                || (negb allow_any && Py.mem line options)) eqn:Hd;
        destruct extra; cbn [negb orb]; try (intros H; exact (IH _ _ _ H)).
      intros H. injection H as <- _. split; [exact Hd|].
      intros check' Hv. injection Hv as <-. eauto.
    + destruct ((allow_any && negb (String.eqb line ""))
                || (negb allow_any && Py.mem line options)) eqn:Hd;
        cbn [negb orb]; try (intros H; exact (IH _ _ _ H)).
      intros H. injection H as <- _. split; [exact Hd|].
      intros check' Hv. discriminate Hv.
Qed.

(** Off a terminal [request_input] raises before it asks anything. *)
Lemma request_input_not_a_tty m prompt options allow_any validator s :
  isatty m = false ->
  exists e s', request_input m prompt options allow_any validator s = (Raise e, s').
Proof.
  intros Htty. unfold request_input. rewrite Htty. cbn [negb].
  destruct (Py.format ERROR_NONINTERACTIVE_INPUT [("prompt", prompt)]);
    run_monad; eexists; eexists; reflexivity.
Qed.

Lemma request_input_returns m prompt options allow_any validator s v s' :
  request_input m prompt options allow_any validator s = (Return v, s') ->
  ((allow_any && negb (String.eqb v "")) || (negb allow_any && Py.mem v options)
   = true)
  /\ (forall check, validator = Some check ->
                    exists lg0 lg1, check v lg0 = (Return true, lg1)).
Proof.
  intros H. destruct (isatty m) eqn:Htty.
  - unfold request_input in H. rewrite Htty in H. cbn [negb] in H.
    exact (request_input_loop_accepts _ _ _ _ _ _ _ _ H).
  - destruct (request_input_not_a_tty m prompt options allow_any validator s Htty)
      as (e & s0 & He).
    rewrite He in H. discriminate H.
Qed.

(** C6. A value returned by [request_input] meets the whole condition of
    acceptance: when [allow_any] is false it is one of [options], when
    [allow_any] is true it is not the empty string, and a validator, when
    one is given, answered true on it. *)
Theorem request_input_result_accepted m prompt options allow_any validator s v s' :
  request_input m prompt options allow_any validator s = (Return v, s') ->
  (allow_any = false -> In v options)
  /\ (allow_any = true -> v <> "")
  /\ (forall check, validator = Some check ->
                    exists lg0 lg1, check v lg0 = (Return true, lg1)).
Proof.
  intros H. destruct (request_input_returns _ _ _ _ _ _ _ _ H) as [Hd Hv].
  repeat split; [| |exact Hv].
  - intros ->. cbn in Hd. now apply mem_In.
  - intros -> ->. cbn in Hd. discriminate Hd.
Qed.

(** The operator answers [maybe], then [y], to a question whose options are
    [y] and [n], with a validator that refuses nothing. *)
Lemma request_input_result_accepted_witness :
  let m := machine [] [] (quiet_shell "") in
  let check : Validator := fun _ lg => (Return true, lg) in
  In "y" ["y"; "n"]
  /\ exists lg0 lg1, check "y" lg0 = (Return true, lg1).
Proof.
  intros m check.
  destruct (request_input_result_accepted m "Install pz-rail-bpz?" ["y"; "n"]
              false (Some check) (session ["maybe"; "y"]) "y"
              {| stdin := [];
                 log := [Prompted (colorize m "question" "Install pz-rail-bpz?" ++ " (y/n) ");
                         Prompted (colorize m "question" "Install pz-rail-bpz?" ++ " (y/n) ")] |}
              eq_refl) as (Hin & _ & Hcheck).
  split; [exact (Hin eq_refl) | exact (Hcheck check eq_refl)].
Defined.

(** C10. With [allow_any] false and no option, [request_input] returns no
    value, whatever the validator and whatever is typed: on a terminal,
    with a validator that answers on every line, each line typed is refused
    and asked again, so the loop ends only when [input] has nothing left to
    read and raises [EOFError].  Hence a call that returns a value was made
    with [allow_any] true or with some option. *)
Theorem request_input_without_options m prompt validator s :
  (forall v s', request_input m prompt [] false validator s <> (Return v, s'))
  /\ (isatty m = true ->
      (forall check, validator = Some check ->
         forall line lg, exists b lg', check line lg = (Return b, lg')) ->
      exists lg,
        request_input m prompt [] false validator s
        = (Raise EOFError, {| stdin := []; log := lg |}))
  /\ (forall options allow_any v s',
        request_input m prompt options allow_any validator s = (Return v, s') ->
        allow_any = true \/ options <> []).
Proof.
  split; [|split].
  - intros v s' H. destruct (request_input_returns _ _ _ _ _ _ _ _ H) as [Hd _].
    cbn in Hd. discriminate Hd.
  - intros Htty Htotal. unfold request_input. rewrite Htty. cbn [negb].
    cbn [List.length Nat.ltb Nat.leb].
    generalize (log s).
    induction (stdin s) as [|line rest IH]; intros lg; cbn [request_input_loop].
    + eexists. reflexivity.
    + destruct validator as [check|].
      * destruct (Htotal check eq_refl line
                    (Prompted (colorize m "question" prompt ++ " ") :: lg))
          as (b & lg' & Hc).
        rewrite Hc. cbn [Py.mem existsb negb andb orb]. apply IH.
      * cbn [Py.mem existsb negb andb orb]. apply IH.
  - intros options allow_any v s' H.
    destruct (request_input_returns _ _ _ _ _ _ _ _ H) as [Hd _].
    destruct allow_any; [left; reflexivity|right].
    intros ->. cbn in Hd. discriminate Hd.
Qed.

(** Three lines typed, none of them accepted. *)
Lemma request_input_without_options_witness :
  let m := machine [] [] (quiet_shell "") in
  exists lg,
    request_input m "Which?" [] false None (session ["a"; ""; "mamba"])
    = (Raise EOFError, {| stdin := []; log := lg |}).
Proof.
  intros m.
  apply (proj1 (proj2 (request_input_without_options m "Which?" None
                         (session ["a"; ""; "mamba"])))).
  - reflexivity.
  - intros check H. discriminate H.
Defined.

(** ** C2, C8 and C9: the version check *)

(** What a command returns or raises does not depend on the session. *)
Lemma run_cmd_outcome m cmd kw s s0 :
  fst (run_cmd m cmd kw s) = fst (run_cmd m cmd kw s0).
Proof.
  unfold run_cmd. run_monad.
  destruct (negb (returncode _ =? 0)); reflexivity.
Qed.

Lemma run_env_manager_cmd_outcome m self cmd kw s s0 :
  fst (run_env_manager_cmd m self cmd kw s)
  = fst (run_env_manager_cmd m self cmd kw s0).
Proof.
  unfold run_env_manager_cmd.
  destruct (env_manager self) as [manager|]; [|reflexivity].
  run_monad. destruct (activation_script manager) as [script|].
  - apply run_cmd_outcome.
  - destruct (which m (executable manager)); [apply run_cmd_outcome|reflexivity].
Qed.

Lemma format_out_of_date e p r :
  Py.format ERROR_ENV_MANAGER_OUT_OF_DATE
    [("env_manager", e); ("present", p); ("required", r)]
  = Some (LF ++ "The installed version of `" ++ e ++ "` (" ++ p
          ++ ") is out of date, at least " ++ r ++ " is" ++ LF
          ++ "required. Please manually upgrade or remove it." ++ LF).
Proof. reflexivity. Qed.

(** The check, when the version command is really run and returns. *)
Lemma check_env_manager_version_real m self manager cmd extract required s result :
  env_manager self = Some manager ->
  version_rule (executable manager) = Some (cmd, extract, required) ->
  dry_run self && negb (env_manager_preinitialized self) = false ->
  fst (run_env_manager_cmd m self cmd
         {| as_comment := false; capture_output := true |} s) = Return result ->
  fst (check_env_manager_version m self s)
  = match stdout result with
    | None => Raise AttributeError
    | Some out =>
        match extract (Py.strip out) with
        | None => Raise ValueError
        | Some present =>
            match version_string_to_tuple present,
                  version_string_to_tuple required with
            | Some tp, Some tr =>
                if Py.tuple_lt tp tr then
                  Raise (RAILInstallationError
                           (framed
                              (LF ++ "The installed version of `"
                               ++ executable manager ++ "` (" ++ present
                               ++ ") is out of date, at least " ++ required
                               ++ " is" ++ LF
                               ++ "required. Please manually upgrade or remove it."
                               ++ LF))
                           1)
                else Return tt
            | _, _ => Raise ValueError
            end
        end
    end.
Proof.
  intros Hm Hrule Hreal Hrun.
  unfold check_env_manager_version. rewrite Hm, Hreal.
  run_monad. rewrite Hrule.
  set (s1 := {| stdin := _; log := _ |}).
  rewrite (run_env_manager_cmd_outcome m self cmd _ s s1) in Hrun.
  destruct (run_env_manager_cmd m self cmd _ s1) as [o s2].
  cbn [fst] in Hrun. subst o.
  destruct (stdout result) as [out|]; [|reflexivity].
  destruct (extract (Py.strip out)) as [present|]; [|reflexivity].
  destruct (version_string_to_tuple present) as [tp|]; [|reflexivity].
  destruct (version_string_to_tuple required) as [tr|]; [|reflexivity].
  destruct (Py.tuple_lt tp tr); [|reflexivity].
  rewrite format_out_of_date. reflexivity.
Qed.

Lemma append_nonempty_r (a b : string) : b <> "" -> a ++ b <> "".
Proof. destruct a; simpl; [auto | discriminate]. Qed.

Lemma endswith_append c (a b : string) :
  b <> "" -> Py.endswith c (a ++ b) = Py.endswith c b.
Proof.
  intros Hb. induction a as [|x a IH]; [reflexivity|].
  cbn [append Py.endswith]. rewrite IH.
  destruct (a ++ b) eqn:E; [|reflexivity].
  exfalso. exact (append_nonempty_r a b Hb E).
Qed.

Ltac nonempty :=
  repeat (apply append_nonempty_r); discriminate.

(** The text of the out-of-date error is already framed by line feeds. *)
Lemma framed_out_of_date e p r :
  let text := LF ++ "The installed version of `" ++ e ++ "` (" ++ p
              ++ ") is out of date, at least " ++ r ++ " is" ++ LF
              ++ "required. Please manually upgrade or remove it." ++ LF in
  framed text = text.
Proof.
  intros text. unfold framed.
  assert (Hs : Py.startswith "010" text = true) by reflexivity.
  rewrite Hs.
  assert (He : Py.endswith "010" text = true).
  { unfold text. repeat (rewrite endswith_append by nonempty). reflexivity. }
  rewrite He. reflexivity.
Qed.

(** The order on tuples is the lexicographic one: the first field that
    differs decides, as integers, and a tuple is above its proper prefixes. *)
Lemma tuple_lt_fieldwise (a b : list Z) :
  Py.tuple_lt a b = true
  <-> (exists common x y a' b',
         a = (common ++ x :: a')%list /\ b = (common ++ y :: b')%list /\ x < y)
      \/ (exists y b', b = (a ++ y :: b')%list).
Proof.
  revert b. induction a as [|x a IH]; intros [|y b]; cbn [Py.tuple_lt].
  - split; [discriminate|].
    intros [(c & x & y & a' & b' & Ha & _)|(y & b' & Hb)];
      [destruct c; discriminate Ha | discriminate Hb].
  - split; [|reflexivity]. intros _. right. exists y, b. reflexivity.
  - split; [discriminate|].
    intros [(c & x' & y & a' & b' & _ & Hb & _)|(y & b' & Hb)];
      [destruct c; discriminate Hb | discriminate Hb].
  - destruct (Z.eqb_spec x y) as [<-|Hxy].
    + rewrite IH. split.
      * intros [(c & x' & y' & a' & b' & -> & -> & Hlt)|(y' & b' & ->)].
        -- left. exists (x :: c), x', y', a', b'. repeat split; auto.
        -- right. exists y', b'. reflexivity.
      * intros [(c & x' & y' & a' & b' & Ha & Hb & Hlt)|(y' & b' & Hb)].
        -- destruct c as [|z c]; cbn in Ha, Hb;
             inversion Ha; inversion Hb; subst; [lia|].
           left. exists c, x', y', a', b'. repeat split; auto.
        -- cbn in Hb. inversion Hb; subst. right. exists y', b'. reflexivity.
    + rewrite Z.ltb_lt. split.
      * intros Hlt. left. exists [], x, y, a, b. repeat split; auto.
      * intros [(c & x' & y' & a' & b' & Ha & Hb & Hlt)|(y' & b' & Hb)].
        -- destruct c as [|z c]; cbn in Ha, Hb;
             inversion Ha; inversion Hb; subst; [exact Hlt | contradiction].
        -- cbn in Hb. inversion Hb; subst. contradiction.
Qed.

Lemma tuple_lt_irrefl (t : list Z) : Py.tuple_lt t t = false.
Proof.
  induction t as [|x t IH]; [reflexivity|].
  cbn [Py.tuple_lt]. rewrite Z.eqb_refl. exact IH.
Qed.

Lemma tuple_lt_proper_prefix (t : list Z) x rest :
  Py.tuple_lt t (t ++ x :: rest)%list = true.
Proof.
  induction t as [|y t IH]; [reflexivity|].
  cbn [Py.tuple_lt app]. rewrite Z.eqb_refl. exact IH.
Qed.

(** C2. Once the version command has run and the present version has been
    extracted from its output, [check_env_manager_version] splits the present
    and the required version at the dots into tuples of integers and compares
    the tuples field by field, as integers: [2.10.0] is above [2.9.9], which
    the order on strings would deny.  It raises the out-of-date error, whose
    text names the present and the required version, exactly when the present
    tuple is strictly below the required one; equal versions pass. *)
Theorem check_env_manager_version_compares
    m self manager cmd extract required s result out present :
  env_manager self = Some manager ->
  version_rule (executable manager) = Some (cmd, extract, required) ->
  dry_run self && negb (env_manager_preinitialized self) = false ->
  fst (run_env_manager_cmd m self cmd
         {| as_comment := false; capture_output := true |} s) = Return result ->
  stdout result = Some out ->
  extract (Py.strip out) = Some present ->
  let out_of_date :=
    RAILInstallationError
      (LF ++ "The installed version of `" ++ executable manager ++ "` ("
       ++ present ++ ") is out of date, at least " ++ required ++ " is" ++ LF
       ++ "required. Please manually upgrade or remove it." ++ LF)
      1 in
  (fst (check_env_manager_version m self s) = Raise out_of_date
   <-> exists tp tr,
         version_string_to_tuple present = Some tp
         /\ version_string_to_tuple required = Some tr
         /\ Py.tuple_lt tp tr = true)
  /\ (forall t,
        version_string_to_tuple present = Some t ->
        version_string_to_tuple required = Some t ->
        fst (check_env_manager_version m self s) = Return tt)
  /\ (forall tp tr,
        Py.tuple_lt tp tr = true
        <-> (exists common x y tp' tr',
               tp = (common ++ x :: tp')%list
               /\ tr = (common ++ y :: tr')%list /\ x < y)
            \/ (exists y tr', tr = (tp ++ y :: tr')%list))
  /\ version_string_to_tuple "2.10.0" = Some [2; 10; 0]
  /\ version_string_to_tuple "2.9.9" = Some [2; 9; 9]
  /\ Py.tuple_lt [2; 9; 9] [2; 10; 0] = true
  /\ String.ltb "2.10.0" "2.9.9" = true.
Proof.
  intros Hm Hrule Hreal Hrun Hout Hpresent out_of_date.
  pose proof (check_env_manager_version_real m self manager cmd extract
                required s result Hm Hrule Hreal Hrun) as Hcheck.
  rewrite Hout, Hpresent, framed_out_of_date in Hcheck.
  split; [|split; [|split; [|repeat split]]]; try reflexivity.
  - rewrite Hcheck. split.
    + destruct (version_string_to_tuple present) as [tp|]; [|discriminate].
      destruct (version_string_to_tuple required) as [tr|]; [|discriminate].
      destruct (Py.tuple_lt tp tr) eqn:Hlt; [|discriminate].
      intros _. exists tp, tr. auto.
    + intros (tp & tr & -> & -> & ->). reflexivity.
  - intros t Hp Hr. rewrite Hcheck, Hp, Hr, tuple_lt_irrefl. reflexivity.
  - apply tuple_lt_fieldwise.
Qed.

(** C9. A present version that is a proper prefix of the required one,
    field by field (fewer fields, the shared ones equal as integers), is
    taken as older: the check raises the out-of-date error. *)
Theorem check_env_manager_version_prefix_is_older
    m self manager cmd extract required s result out present tp field fields :
  env_manager self = Some manager ->
  version_rule (executable manager) = Some (cmd, extract, required) ->
  dry_run self && negb (env_manager_preinitialized self) = false ->
  fst (run_env_manager_cmd m self cmd
         {| as_comment := false; capture_output := true |} s) = Return result ->
  stdout result = Some out ->
  extract (Py.strip out) = Some present ->
  version_string_to_tuple present = Some tp ->
  version_string_to_tuple required = Some (tp ++ field :: fields)%list ->
  Py.tuple_lt tp (tp ++ field :: fields)%list = true
  /\ fst (check_env_manager_version m self s)
     = Raise (RAILInstallationError
                (LF ++ "The installed version of `" ++ executable manager
                 ++ "` (" ++ present ++ ") is out of date, at least "
                 ++ required ++ " is" ++ LF
                 ++ "required. Please manually upgrade or remove it." ++ LF)
                1).
Proof.
  intros Hm Hrule Hreal Hrun Hout Hpresent Htp Htr.
  split; [apply tuple_lt_proper_prefix|].
  rewrite (check_env_manager_version_real m self manager cmd extract
             required s result Hm Hrule Hreal Hrun).
  rewrite Hout, Hpresent, Htp, Htr, tuple_lt_proper_prefix, framed_out_of_date.
  reflexivity.
Qed.

(** Miniconda on the search path reports 23.4.0 where 23.5.0 is required. *)
Lemma check_env_manager_version_compares_witness :
  let m := machine ["conda"] ["/home/u/miniconda3/bin/activate"]
             (quiet_shell ("conda 23.4.0" ++ LF)) in
  fst (check_env_manager_version m (detected miniconda true false) (session []))
  = Raise (RAILInstallationError
             (LF ++ "The installed version of `conda` (23.4.0) is out of date, at least 23.5.0 is"
              ++ LF ++ "required. Please manually upgrade or remove it." ++ LF)
             1).
Proof.
  intros m.
  apply (proj1 (check_env_manager_version_compares m
                  (detected miniconda true false) miniconda
                  "conda --version" after_last_space "23.5.0" (session [])
                  {| returncode := 0; stdout := Some ("conda 23.4.0" ++ LF);
                     stderr := Some "" |}
                  ("conda 23.4.0" ++ LF) "23.4.0"
                  eq_refl eq_refl eq_refl eq_refl eq_refl eq_refl)).
  exists [23; 4; 0], [23; 5; 0]. repeat split; reflexivity.
Defined.

(** Miniconda reports 23.5 where 23.5.0 is required. *)
Lemma check_env_manager_version_prefix_is_older_witness :
  let m := machine ["conda"] ["/home/u/miniconda3/bin/activate"]
             (quiet_shell ("conda 23.5" ++ LF)) in
  fst (check_env_manager_version m (detected miniconda true false) (session []))
  = Raise (RAILInstallationError
             (LF ++ "The installed version of `conda` (23.5) is out of date, at least 23.5.0 is"
              ++ LF ++ "required. Please manually upgrade or remove it." ++ LF)
             1).
Proof.
  intros m.
  exact (proj2 (check_env_manager_version_prefix_is_older m
                  (detected miniconda true false) miniconda
                  "conda --version" after_last_space "23.5.0" (session [])
                  {| returncode := 0; stdout := Some ("conda 23.5" ++ LF);
                     stderr := Some "" |}
                  ("conda 23.5" ++ LF) "23.5" [23; 5] 0 []
                  eq_refl eq_refl eq_refl eq_refl eq_refl eq_refl
                  eq_refl eq_refl)).
Defined.

(** No failure of a command has the text of the out-of-date error. *)
Lemma run_cmd_not_out_of_date m cmd kw s e p r code :
  fst (run_cmd m cmd kw s)
  <> Raise (RAILInstallationError
              (LF ++ "The installed version of `" ++ e ++ "` (" ++ p
               ++ ") is out of date, at least " ++ r ++ " is" ++ LF
               ++ "required. Please manually upgrade or remove it." ++ LF)
              code).
Proof.
  unfold run_cmd. run_monad.
  destruct (negb (returncode _ =? 0)); [|discriminate].
  unfold run_cmd_error_message, framed.
  destruct (is_some _ || is_some _); destruct (negb (_ =? 127));
    cbn [append Py.startswith Ascii.eqb Bool.eqb LF];
    match goal with
    | |- context [if ?b then _ else _] => destruct b
    end; cbn [append]; intros H; discriminate H.
Qed.

Lemma run_env_manager_cmd_not_out_of_date m self cmd kw s e p r code :
  fst (run_env_manager_cmd m self cmd kw s)
  <> Raise (RAILInstallationError
              (LF ++ "The installed version of `" ++ e ++ "` (" ++ p
               ++ ") is out of date, at least " ++ r ++ " is" ++ LF
               ++ "required. Please manually upgrade or remove it." ++ LF)
              code).
Proof.
  unfold run_env_manager_cmd.
  destruct (env_manager self) as [manager|]; [|discriminate].
  run_monad. destruct (activation_script manager) as [script|].
  - apply run_cmd_not_out_of_date.
  - destruct (which m (executable manager));
      [apply run_cmd_not_out_of_date | intros H; discriminate H].
Qed.

(** Two dry runs on machines whose installed manager reports version 4.0.0.
    On the first, [mamba] is installed and reachable through its activation
    script only: the dry run passes, the version command was only echoed as a
    comment, while the same run outside dry-run mode raises the out-of-date
    error.  On the second, [conda] is on the search path: the dry run, which
    installs nothing, does inspect the real output and raises the
    out-of-date error. *)
Lemma dry_run_version_check_follows_the_search_path :
  let script_only :=
    machine [] ["/home/u/miniforge3/bin/activate"]
      (reporting_shell ("conda 4.0.0" ++ LF)) in
  let on_path :=
    machine ["conda"] ["/home/u/miniconda3/bin/activate"]
      (reporting_shell ("conda 4.0.0" ++ LF)) in
  let out_of_date exe :=
    RAILInstallationError
      (LF ++ "The installed version of `" ++ exe
       ++ "` (4.0.0) is out of date, at least 23.5.0 is"
       ++ LF ++ "required. Please manually upgrade or remove it." ++ LF) 1 in
  find (detectable script_only) (ENV_MANAGER_INFO (home script_only)) = Some mamba
  /\ fst (find_env_manager script_only (fresh true) None (session []))
     = Return (detected mamba false true)
  /\ commands (log (snd (find_env_manager script_only (fresh true) None
                           (session []))))
     = ["# . /home/u/miniforge3/bin/activate && mamba shell init --shell bash";
        "# . /home/u/miniforge3/bin/activate && conda --version"]
  /\ fst (find_env_manager script_only (fresh false) None (session []))
     = Raise (out_of_date "mamba")
  /\ find (detectable on_path) (ENV_MANAGER_INFO (home on_path)) = Some miniconda
  /\ fst (find_env_manager on_path (fresh true) None (session []))
     = Raise (out_of_date "conda").
Proof.
  intros script_only on_path out_of_date.
  repeat split; vm_compute; reflexivity.
Qed.

(** C8, as the code has it.  The version check is skipped exactly when the
    run is a dry run and the manager is not on the search path
    ([env_manager_preinitialized] is false), be it after a simulated
    installation or for a manager found through its activation script.  The
    version command is then passed on as a comment, the check returns as
    soon as that call returns, compares nothing and never raises the
    out-of-date error.  In every other case the output of the real version
    command decides. *)
Theorem check_env_manager_version_dry_run
    m self manager cmd extract required s :
  env_manager self = Some manager ->
  version_rule (executable manager) = Some (cmd, extract, required) ->
  (dry_run self = true -> env_manager_preinitialized self = false ->
   check_env_manager_version m self s
   = (print_header ("Verifying " ++ executable manager ++ " version") ;;;
      run_env_manager_cmd m self cmd
        {| as_comment := true; capture_output := true |} ;;;
      ret tt) s
   /\ forall e p r code,
        fst (check_env_manager_version m self s)
        <> Raise (RAILInstallationError
                    (LF ++ "The installed version of `" ++ e ++ "` (" ++ p
                     ++ ") is out of date, at least " ++ r ++ " is" ++ LF
                     ++ "required. Please manually upgrade or remove it." ++ LF)
                    code))
  /\ (dry_run self = false \/ env_manager_preinitialized self = true ->
      forall result out present tp tr,
        fst (run_env_manager_cmd m self cmd
               {| as_comment := false; capture_output := true |} s)
        = Return result ->
        stdout result = Some out ->
        extract (Py.strip out) = Some present ->
        version_string_to_tuple present = Some tp ->
        version_string_to_tuple required = Some tr ->
        fst (check_env_manager_version m self s)
        = if Py.tuple_lt tp tr then
            Raise (RAILInstallationError
                     (LF ++ "The installed version of `" ++ executable manager
                      ++ "` (" ++ present ++ ") is out of date, at least "
                      ++ required ++ " is" ++ LF
                      ++ "required. Please manually upgrade or remove it." ++ LF)
                     1)
          else Return tt).
Proof.
  intros Hm Hrule. split.
  - intros Hdry Hpre.
    assert (Heq : check_env_manager_version m self s
                  = (print_header ("Verifying " ++ executable manager ++ " version") ;;;
                     run_env_manager_cmd m self cmd
                       {| as_comment := true; capture_output := true |} ;;;
                     ret tt) s).
    { unfold check_env_manager_version. rewrite Hm, Hdry, Hpre.
      run_monad. rewrite Hrule. cbn [andb negb].
      destruct (run_env_manager_cmd m self cmd _ _) as [[a|e] s1]; reflexivity. }
    split; [exact Heq|].
    intros e p r code. rewrite Heq. run_monad.
    set (s1 := {| stdin := _; log := _ |}).
    pose proof (run_env_manager_cmd_not_out_of_date m self cmd
                  {| as_comment := true; capture_output := true |} s1 e p r code)
      as Hne.
    destruct (run_env_manager_cmd m self cmd _ s1) as [[a|e0] s2];
      cbn [fst] in *; [discriminate|].
    intros H. apply Hne. injection H as ->. reflexivity.
  - intros Hreal result out present tp tr Hrun Hout Hpresent Htp Htr.
    assert (Hflag : dry_run self && negb (env_manager_preinitialized self) = false).
    { destruct Hreal as [-> | ->]; [reflexivity|].
      destruct (dry_run self); reflexivity. }
    rewrite (check_env_manager_version_real m self manager cmd extract
               required s result Hm Hrule Hflag Hrun).
    rewrite Hout, Hpresent, Htp, Htr, framed_out_of_date. reflexivity.
Qed.

(** A dry run with [mamba] found through its script: the check returns. *)
Lemma check_env_manager_version_dry_run_witness :
  let m := machine [] ["/home/u/miniforge3/bin/activate"]
             (reporting_shell ("conda 4.0.0" ++ LF)) in
  fst (check_env_manager_version m (detected mamba false true) (session []))
  = Return tt.
Proof.
  intros m.
  rewrite (proj1 (proj1 (check_env_manager_version_dry_run m
                           (detected mamba false true) mamba
                           "conda --version" after_last_space "23.5.0"
                           (session []) eq_refl eq_refl)
                    eq_refl eq_refl)).
  reflexivity.
Defined.

(** ** C3: a request to install what is already there *)

Lemma format_already_installed requested exe :
  Py.format ERROR_ENV_MANAGER_ALREADY_INSTALLED
    [("to_install", requested); ("already_installed", exe)]
  = Some (LF ++ "Requested installation of `" ++ requested ++ "` but `" ++ exe
          ++ "` was already found on" ++ LF ++ "the system." ++ LF).
Proof. reflexivity. Qed.

Lemma format_exists_without_path exe script :
  Py.format ERROR_ENV_MANAGER_EXISTS_WITHOUT_PATH
    [("env_manager", exe); ("activation_script_path", script)]
  = Some (LF ++ LF ++ "`" ++ exe
          ++ " is not present in $PATH, but an activation script exists at"
          ++ LF ++ script ++ ". Follow the " ++ exe
          ++ " instructions for initializing your" ++ LF
          ++ "shell, then restart your terminal session." ++ LF).
Proof. reflexivity. Qed.

Lemma append_inv_head (a b c : string) : a ++ b = a ++ c -> b = c.
Proof.
  induction a as [|x a IH]; simpl; [auto|].
  intros H. injection H as H. auto.
Qed.

(** C3. When a manager was asked for and the detection, run on a new
    installer, selects a manager [e], [find_env_manager] ends in a
    [RAILInstallationError] before any command is run.  Its message names
    the manager asked for and the executable of the one found, and it goes
    on with the advice about the activation script exactly when [e] is not on
    the search path, that is when it was found through its activation
    script only. *)
Theorem find_env_manager_already_installed m f d v k a requested s e :
  find (detectable m) (ENV_MANAGER_INFO (home m)) = Some e ->
  let found :=
    LF ++ "Requested installation of `" ++ requested ++ "` but `"
    ++ executable e ++ "` was already found on" ++ LF ++ "the system." ++ LF in
  let advice :=
    LF ++ LF ++ "`" ++ executable e
    ++ " is not present in $PATH, but an activation script exists at"
    ++ LF ++ str_of_path (activation_script e) ++ ". Follow the "
    ++ executable e ++ " instructions for initializing your" ++ LF
    ++ "shell, then restart your terminal session." ++ LF in
  exists message s',
    find_env_manager m (new_Installer f d v k a) (Some requested) s
    = (Raise (RAILInstallationError message 1), s')
    /\ message = (if which m (executable e) then found else found ++ advice)
    /\ (message = found ++ advice <-> which m (executable e) = false)
    /\ (which m (executable e) = false ->
        exists script,
          activation_script e = Some script /\ path_exists m script = true)
    /\ commands (log s') = commands (log s).
Proof.
  intros Hfind found advice.
  destruct (find_detectable_split m _ e Hfind) as (pre & post & Hreg & Hpre & He).
  unfold find_env_manager. cbv zeta. rewrite Hreg.
  unfold bind at 1. unfold print_header at 1. unfold emit at 1.
  unfold bind at 1.
  set (s1 := {| stdin := _; log := _ |}).
  destruct (find_env_manager_loop_first m (new_Installer f d v k a) None
              pre e post s1 Hpre He) as (s2 & Hloop & _ & Hcmds).
  rewrite Hloop. clear Hloop.
  assert (Hframed_found : framed found = found).
  { unfold framed, found.
    assert (Hs : forall x, Py.startswith "010" (LF ++ x) = true) by reflexivity.
    rewrite Hs. repeat (rewrite endswith_append by nonempty). reflexivity. }
  assert (Hframed_both : framed (found ++ advice) = found ++ advice).
  { unfold framed.
    assert (Hs : Py.startswith "010" (found ++ advice) = true) by reflexivity.
    rewrite Hs. rewrite endswith_append by (unfold advice; nonempty).
    unfold advice. repeat (rewrite endswith_append by nonempty). reflexivity. }
  destruct (which m (executable e)) eqn:Hw.
  - cbn [env_manager env_manager_preinitialized set_env_manager
         set_env_manager_preinitialized negb].
    rewrite format_already_installed. run_monad. fold found.
    rewrite Hframed_found.
    eexists. eexists. split; [reflexivity|]. split; [reflexivity|].
    split; [|split].
    + split; [|discriminate]. intros H. exfalso.
      rewrite <- (append_empty_r found) in H at 1.
      apply append_inv_head in H. discriminate H.
    + discriminate.
    + exact Hcmds.
  - cbn [env_manager env_manager_preinitialized set_env_manager
         set_env_manager_preinitialized new_Installer negb].
    rewrite format_already_installed. run_monad.
    rewrite format_exists_without_path. fold found. fold advice.
    rewrite Hframed_both.
    eexists. eexists. split; [reflexivity|]. split; [reflexivity|].
    split; [|split].
    + split; reflexivity.
    + intros _. unfold detectable in He. rewrite Hw in He. cbn [orb] in He.
      destruct (activation_script e) as [script|]; [|discriminate].
      exists script. auto.
    + exact Hcmds.
Qed.

(** [conda] is on the search path and mamba is asked for: the error names
    [mamba] and [conda], without the advice. *)
Lemma find_env_manager_already_installed_witness :
  let m := machine ["conda"] [] (quiet_shell "") in
  fst (find_env_manager m (fresh false) (Some "mamba") (session []))
  = Raise (RAILInstallationError
             (LF ++ "Requested installation of `mamba` but `conda` was already found on"
              ++ LF ++ "the system." ++ LF)
             1).
Proof.
  intros m.
  destruct (find_env_manager_already_installed m "curl" false false "Linux"
              "x86_64" "mamba" (session []) miniconda eq_refl)
    as (message & s' & Hrun & Hmessage & _).
  unfold fresh. rewrite Hrun, Hmessage. reflexivity.
Defined.

(** ** C5: the name of the new environment *)



Lemma not_mem (x : string) (l : list string) : Py.mem x l = false <-> ~ In x l.
Proof.
  rewrite <- mem_In. destruct (Py.mem x l); split; congruence.
Qed.


Lemma expect_returns {A} e (o : option A) s a s' :
  expect e o s = (Return a, s') -> o = Some a /\ s' = s.
Proof.
  destruct o; cbn; intros H; inversion H; auto.
Qed.

Lemma run_cmd_returns m cmd kw s r s' :
  run_cmd m cmd kw s = (Return r, s') ->
  stdin s' = stdin s
  /\ prompts (log s') = prompts (log s)
  /\ commands (log s')
     = (commands (log s) ++ [(if as_comment kw then "# " ++ cmd else cmd)%string])%list.
Proof.
  unfold run_cmd. run_monad.
  destruct (negb (returncode _ =? 0)); intros H; inversion H.
  repeat split.
Qed.




(** One step of a computation that is known to return. *)
Ltac step H a s E :=
  unfold bind at 1 in H;
  match type of H with
  | (let (_, _) := ?c in _) = _ =>
      destruct c as [[a|?] s] eqn:E; [|discriminate H]
  | match ?c with _ => _ end = _ =>
      destruct c as [[a|?] s] eqn:E; [|discriminate H]
  end.







(** The names in use are the stems of the prefixes: for an environment at
    [/opt/conda/envs/py3.10] the name in use is [py3]. *)
Example existing_names_are_stems :
  let m := conda_machine ["/opt/conda/envs/py3.10"] in
  let self := detected miniconda true false in
  fst (existing_environment_names m self (session [])) = Return ["py3"]
  /\ fst (choose_env_name m self (Some "py3.10") (session []))
     = Return (set_env_name self "py3.10")
  /\ fst (choose_env_name m self (Some "py3") (session []))
     = Raise (RAILInstallationError
                (LF ++ "Supplied environment name py3 already exists" ++ LF) 1).
Proof. repeat split; vm_compute; reflexivity. Qed.

(** ** Reasoning on what a computation adds to the log *)



































(** ** More on [request_input] *)

Lemma request_input_raises_off_terminal m prompt options allow_any validator s :
  isatty m = false ->
  let message :=
    LF ++ "User input needed, but output device is not a tty. To run the RAIL installation script"
    ++ LF ++ "in an unattended mode, ensure all choices are given as command-line options."
    ++ LF ++ LF ++ "Input needed: " ++ prompt ++ LF in
  request_input m prompt options allow_any validator s
  = (Raise (RAILInstallationError message 1),
     {| stdin := stdin s; log := Printed message :: log s |}).
Proof.
  intros Htty message. unfold request_input. rewrite Htty. cbn [negb].
  assert (Hformat : Py.format ERROR_NONINTERACTIVE_INPUT [("prompt", prompt)]
                    = Some message) by reflexivity.
  rewrite Hformat. run_monad.
  assert (Hframed : framed message = message).
  { unfold framed.
    assert (Hs : Py.startswith "010" message = true) by reflexivity.
    rewrite Hs. unfold message.
    repeat (rewrite endswith_append by nonempty). reflexivity. }
  rewrite Hframed. unfold colorize. rewrite Htty. reflexivity.
Qed.

(** X2. Off a terminal [request_input] asks nothing and reads nothing: it
    raises at once the error that names the prompt, with code 1, whatever the
    options and the validator. *)
Theorem request_input_off_terminal m prompt options allow_any validator s :
  isatty m = false ->
  let message :=
    LF ++ "User input needed, but output device is not a tty. To run the RAIL installation script"
    ++ LF ++ "in an unattended mode, ensure all choices are given as command-line options."
    ++ LF ++ LF ++ "Input needed: " ++ prompt ++ LF in
  request_input m prompt options allow_any validator s
  = (Raise (RAILInstallationError message 1),
     {| stdin := stdin s; log := Printed message :: log s |})
  /\ prompts (Printed message :: log s) = prompts (log s)
  /\ commands (Printed message :: log s) = commands (log s).
Proof.
  intros Htty message. split; [|split; reflexivity].
  exact (request_input_raises_off_terminal m prompt options allow_any
           validator s Htty).
Qed.

Lemma request_input_off_terminal_witness :
  let m := {| which := fun _ => false; path_exists := fun _ => false;
              isatty := false; home := "/home/u"; environ_SHELL := None;
              subprocess_run := quiet_shell ""; json_loads := fun _ => None |} in
  fst (request_input m "Install pz-rail-bpz?" ["y"; "n"] false None
         (session ["y"]))
  = Raise (RAILInstallationError
             (LF ++ "User input needed, but output device is not a tty. To run the RAIL installation script"
              ++ LF ++ "in an unattended mode, ensure all choices are given as command-line options."
              ++ LF ++ LF ++ "Input needed: Install pz-rail-bpz?" ++ LF) 1).
Proof.
  intros m.
  rewrite (proj1 (request_input_off_terminal m "Install pz-rail-bpz?"
                    ["y"; "n"] false None (session ["y"]) eq_refl)).
  reflexivity.
Defined.

(** X3. On a terminal, without a validator, [request_input] returns the
    first line typed that passes its test (not empty when [allow_any] is
    set, one of the options otherwise): the lines before it are each
    answered by a new prompt, the lines after it are left unread, and no
    command is run. *)
Theorem request_input_first_accepted
    m prompt options allow_any s rejected line rest :
  isatty m = true ->
  stdin s = (rejected ++ line :: rest)%list ->
  Forall (fun l => (allow_any && negb (String.eqb l ""))
                   || (negb allow_any && Py.mem l options) = false) rejected ->
  (allow_any && negb (String.eqb line ""))
  || (negb allow_any && Py.mem line options) = true ->
  exists lg,
    request_input m prompt options allow_any None s
    = (Return line, {| stdin := rest; log := lg |})
    /\ prompts lg = (prompts (log s) + List.length rejected + 1)%nat
    /\ commands lg = commands (log s).
Proof.
  intros Htty Hstdin Hrej Hline. unfold request_input.
  rewrite Htty. cbn [negb]. rewrite Hstdin. clear Hstdin.
  generalize (log s).
  induction Hrej as [|l rejected Hl _ IH]; intros lg;
    cbn [app request_input_loop].
  - rewrite Hline. cbn [negb orb]. eexists. split; [reflexivity|].
    cbn [prompts commands List.length]. split; [lia | reflexivity].
  - rewrite Hl. cbn [negb orb].
    destruct (IH (Prompted
                    (if (0 <? List.length options)%nat
                     then colorize m "question" prompt ++ " ("
                          ++ Py.join "/" options ++ ") "
                     else colorize m "question" prompt ++ " ") :: lg))
      as (lg' & Hrun & Hp & Hc).
    exists lg'. split; [exact Hrun|].
    cbn [prompts commands List.length] in *. split; [lia | exact Hc].
Qed.

(** Two wrong answers, then [n]. *)
Lemma request_input_first_accepted_witness :
  let m := machine [] [] (quiet_shell "") in
  exists lg,
    request_input m "Install pz-rail-bpz?" ["y"; "n"] false None
      (session ["yes"; ""; "n"; "y"])
    = (Return "n", {| stdin := ["y"]; log := lg |})
    /\ prompts lg = 3%nat.
Proof.
  intros m.
  destruct (request_input_first_accepted m "Install pz-rail-bpz?" ["y"; "n"]
              false (session ["yes"; ""; "n"; "y"]) ["yes"; ""] "n" ["y"]
              eq_refl eq_refl) as (lg & Hrun & Hp & _).
  - repeat constructor.
  - reflexivity.
  - exists lg. split; [exact Hrun | exact Hp].
Defined.

(** ** More on the version check *)

Lemma ints_none (l : list string) :
  ints l = None <-> exists x, In x l /\ Py.int x = None.
Proof.
  induction l as [|y l IH]; cbn [ints].
  - split; [discriminate | intros (x & [] & _)].
  - destruct (Py.int y) as [n|] eqn:Hy.
    + destruct (ints l) as [t|]; cbn [option_map].
      * split; [discriminate|]. intros (x & [<-|Hx] & Hn); [congruence|].
        destruct IH as [_ IH]. discriminate IH. eauto.
      * split; [|reflexivity]. intros _.
        destruct IH as [IH _]. destruct (IH eq_refl) as (x & Hx & Hn).
        exists x. split; [right; exact Hx | exact Hn].
    + split; [|reflexivity]. intros _. exists y. split; [left; reflexivity | exact Hy].
Qed.

Lemma rindex_none c (s : string) :
  Py.rindex c s = None <-> ~ In c (list_ascii_of_string s).
Proof.
  induction s as [|a s IH]; cbn [Py.rindex list_ascii_of_string].
  - split; [intros _ [] | reflexivity].
  - destruct (Py.rindex c s) as [i|].
    + split; [discriminate|]. intros Hn. exfalso.
      destruct IH as [_ IH].
      assert (H : ~ In c (list_ascii_of_string s))
        by (intros Hin; apply Hn; right; exact Hin).
      discriminate (IH H).
    + destruct (Ascii.eqb_spec a c) as [->|Hne].
      * split; [discriminate|]. intros Hn. exfalso. apply Hn. left. reflexivity.
      * split; [|reflexivity]. intros _ [Heq|Hin]; [congruence|].
        destruct IH as [IH _]. exact (IH eq_refl Hin).
Qed.

(** *** What [int] refuses *)

Lemma int_space_not_digit c : Py.is_int_space c = true -> Py.is_digit c = false.
Proof.
  destruct c as [[] [] [] [] [] [] [] []]; try reflexivity; discriminate.
Qed.

Lemma count_digits_lstrip s : Py.count_digits (Py.int_lstrip s) = Py.count_digits s.
Proof.
  induction s as [|c s IH]; [reflexivity|]. cbn [Py.int_lstrip].
  destruct (Py.is_int_space c) eqn:E; [|reflexivity].
  cbn [Py.count_digits]. rewrite (int_space_not_digit c E), IH. reflexivity.
Qed.

Lemma count_digits_rstrip s : Py.count_digits (Py.int_rstrip s) = Py.count_digits s.
Proof.
  induction s as [|c s IH]; [reflexivity|]. cbn [Py.int_rstrip Py.count_digits].
  destruct (Py.int_rstrip s) as [|a r] eqn:E.
  - rewrite <- IH. destruct (Py.is_int_space c) eqn:Ec.
    + rewrite (int_space_not_digit c Ec). reflexivity.
    + reflexivity.
  - rewrite <- IH. reflexivity.
Qed.

Lemma literal_long t :
  Py.int_max_str_digits < Py.count_digits t -> Py.literal t = None.
Proof.
  intros H. unfold Py.literal. apply Z.ltb_lt in H. rewrite H. reflexivity.
Qed.

(** A string with more digits than the interpreter allows is refused,
    wherever the digits are. *)
Lemma int_refuses_long s :
  Py.int_max_str_digits < Py.count_digits s -> Py.int s = None.
Proof.
  intros H. unfold Py.int.
  rewrite <- count_digits_lstrip, <- count_digits_rstrip in H.
  destruct (Py.int_rstrip (Py.int_lstrip s)) as [|c r];
    [apply literal_long; exact H|].
  destruct c as [[] [] [] [] [] [] [] []]; cbv beta iota;
    first [ apply literal_long; exact H
          | rewrite literal_long; [reflexivity | exact H] ].
Qed.

Lemma digits_characters s :
  forall acc prev n,
    Py.digits acc prev s = Some n ->
    forall c, In c (list_ascii_of_string s) ->
              Py.is_digit c || Ascii.eqb c "_" = true.
Proof.
  induction s as [|a s IH]; intros acc prev n H c Hc; [destruct Hc|].
  cbn [Py.digits] in H. cbn [list_ascii_of_string] in Hc.
  destruct (Py.is_digit a) eqn:Ed.
  - destruct Hc as [<-|Hc]; [rewrite Ed; reflexivity | eauto].
  - destruct (Ascii.eqb a "_") eqn:Eu; [|discriminate H].
    destruct prev; [|discriminate H].
    destruct Hc as [<-|Hc]; [rewrite Eu; apply orb_true_r | eauto].
Qed.

Lemma literal_characters t n :
  Py.literal t = Some n ->
  forall c, In c (list_ascii_of_string t) -> Py.int_character c = true.
Proof.
  unfold Py.literal. destruct (Py.int_max_str_digits <? Py.count_digits t);
    [discriminate|].
  intros H c Hc. pose proof (digits_characters t 0 false n H c Hc) as Hd.
  unfold Py.int_character.
  destruct (Py.is_digit c); [reflexivity|]. cbn [orb] in Hd |- *.
  rewrite Hd. reflexivity.
Qed.

Lemma int_lstrip_characters s c :
  In c (list_ascii_of_string s) ->
  Py.is_int_space c = true \/ In c (list_ascii_of_string (Py.int_lstrip s)).
Proof.
  induction s as [|a s IH]; [intros []|].
  cbn [Py.int_lstrip]. destruct (Py.is_int_space a) eqn:Ea; [|auto].
  intros [<-|Hc]; auto.
Qed.

Lemma int_rstrip_characters s c :
  In c (list_ascii_of_string s) ->
  Py.is_int_space c = true \/ In c (list_ascii_of_string (Py.int_rstrip s)).
Proof.
  induction s as [|a s IH]; [intros []|].
  cbn [Py.int_rstrip list_ascii_of_string].
  destruct (Py.int_rstrip s) as [|b r] eqn:E.
  - intros [<-|Hc].
    + destruct (Py.is_int_space a); [auto | right; left; reflexivity].
    + destruct (IH Hc) as [Hs|[]]. auto.
  - intros [<-|Hc]; [right; left; reflexivity|].
    destruct (IH Hc) as [Hs|Hin]; [auto | right; right; exact Hin].
Qed.

(** A string that [int] accepts is made of digits, underscores, a sign and
    the white space of [int]: a letter anywhere, or one of the separators
    that [strip] would remove, makes [int] raise. *)
Lemma int_characters s n :
  Py.int s = Some n ->
  forall c, In c (list_ascii_of_string s) -> Py.int_character c = true.
Proof.
  intros H c Hc.
  assert (Hspace : Py.is_int_space c = true -> Py.int_character c = true).
  { intros E. unfold Py.int_character. rewrite E. apply orb_true_r. }
  destruct (int_lstrip_characters s c Hc) as [Hs|Hl]; [auto|].
  destruct (int_rstrip_characters _ c Hl) as [Hs|Hr]; [auto|].
  unfold Py.int in H.
  destruct (Py.int_rstrip (Py.int_lstrip s)) as [|a r]; [destruct Hr|].
  cbn [list_ascii_of_string] in Hr.
  destruct a as [[] [] [] [] [] [] [] []]; cbv beta iota in H;
    try exact (literal_characters _ n H c Hr);
    (destruct Hr as [<-|Hr]; [reflexivity|]).
  - exact (literal_characters r n H c Hr).
  - destruct (Py.literal r) as [k|] eqn:E; [|discriminate H].
    exact (literal_characters r k E c Hr).
Qed.

Lemma version_rule_required exe cmd extract required :
  version_rule exe = Some (cmd, extract, required) ->
  version_string_to_tuple required <> None.
Proof.
  unfold version_rule.
  destruct (String.eqb exe "conda");
    [intros H; inversion H; subst; discriminate|].
  destruct (String.eqb exe "mamba");
    [intros H; inversion H; subst; discriminate|].
  destruct (String.eqb exe "micromamba");
    [intros H; inversion H; subst; discriminate | discriminate].
Qed.

Lemma version_rule_extract exe cmd extract required text :
  version_rule exe = Some (cmd, extract, required) ->
  extract text = None ->
  String.eqb exe "micromamba" = false /\ Py.rindex " " text = None.
Proof.
  unfold version_rule.
  destruct (String.eqb_spec exe "conda") as [->|_].
  { intros H; inversion H; subst. unfold after_last_space.
    destruct (Py.rindex " " text); [discriminate | auto]. }
  destruct (String.eqb_spec exe "mamba") as [->|_].
  { intros H; inversion H; subst. unfold after_last_space.
    destruct (Py.rindex " " text); [discriminate | auto]. }
  destruct (String.eqb exe "micromamba"); [|discriminate].
  intros H; inversion H; subst. discriminate.
Qed.

(** X4. When the version command is really run, the check raises
    [ValueError] exactly when its output does not carry a version made of
    integers between dots: for the managers run as [conda] or [mamba], when
    the output has no space; for all, when a field is refused by [int].  It
    then neither passes nor raises the out-of-date error.  [int] refuses
    every field with a character other than a digit, an underscore, a sign
    or the white space it skips (so a letter, and the separators U+001C to
    U+001F that [strip] removes), and every field of more than 4300
    digits. *)
Theorem check_env_manager_version_malformed
    m self manager cmd extract required s result out :
  env_manager self = Some manager ->
  version_rule (executable manager) = Some (cmd, extract, required) ->
  dry_run self && negb (env_manager_preinitialized self) = false ->
  fst (run_env_manager_cmd m self cmd
         {| as_comment := false; capture_output := true |} s) = Return result ->
  stdout result = Some out ->
  (fst (check_env_manager_version m self s) = Raise ValueError
   <-> (String.eqb (executable manager) "micromamba" = false
        /\ ~ In " "%char (list_ascii_of_string (Py.strip out)))
       \/ (exists present field,
             extract (Py.strip out) = Some present
             /\ In field (Py.split "." present) /\ Py.int field = None))
  /\ (forall field c,
        In c (list_ascii_of_string field) -> Py.int_character c = false ->
        Py.int field = None)
  /\ (forall field,
        Py.int_max_str_digits < Py.count_digits field -> Py.int field = None).
Proof.
  intros Hm Hrule Hreal Hrun Hout.
  split; [|split].
  - rewrite (check_env_manager_version_real m self manager cmd extract
               required s result Hm Hrule Hreal Hrun), Hout.
    split.
    + destruct (extract (Py.strip out)) as [present|] eqn:Hp.
      * destruct (version_string_to_tuple present) as [tp|] eqn:Htp.
        -- pose proof (version_rule_required _ _ _ _ Hrule) as Hreq.
           destruct (version_string_to_tuple required) as [tr|];
             [|contradiction].
           destruct (Py.tuple_lt tp tr); discriminate.
        -- intros _. right. unfold version_string_to_tuple in Htp.
           apply ints_none in Htp as (field & Hin & Hint).
           exists present, field. auto.
      * intros _. left.
        destruct (version_rule_extract _ _ _ _ _ Hrule Hp) as [Hexe Hspace].
        split; [exact Hexe|]. apply rindex_none. exact Hspace.
    + intros [[Hexe Hspace]|(present & field & Hp & Hin & Hint)].
      * assert (Hextract : extract = after_last_space).
        { unfold version_rule in Hrule. rewrite Hexe in Hrule.
          destruct (String.eqb (executable manager) "conda");
            [congruence|].
          destruct (String.eqb (executable manager) "mamba"); congruence. }
        subst extract. unfold after_last_space.
        apply rindex_none in Hspace. rewrite Hspace. reflexivity.
      * rewrite Hp.
        assert (Hnone : version_string_to_tuple present = None).
        { unfold version_string_to_tuple. apply ints_none. eauto. }
        rewrite Hnone. reflexivity.
  - intros field c Hc Hbad. destruct (Py.int field) as [n|] eqn:E; [|reflexivity].
    rewrite (int_characters field n E c Hc) in Hbad. discriminate Hbad.
  - exact int_refuses_long.
Qed.

(** A release candidate of conda, a version command that prints nothing,
    and a version with the separator U+001C before its last field, which
    [strip] would remove and [int] does not skip. *)
Lemma check_env_manager_version_malformed_witness :
  let candidate := machine ["conda"] ["/home/u/miniconda3/bin/activate"]
                     (quiet_shell ("conda 24.1.0rc1" ++ LF)) in
  let silent := machine ["conda"] ["/home/u/miniconda3/bin/activate"]
                  (quiet_shell "") in
  let separated := machine ["conda"] ["/home/u/miniconda3/bin/activate"]
                     (quiet_shell ("conda 23.5." ++ String "028" "0" ++ LF)) in
  fst (check_env_manager_version candidate (detected miniconda true false)
         (session [])) = Raise ValueError
  /\ fst (check_env_manager_version silent (detected miniconda true false)
            (session [])) = Raise ValueError
  /\ fst (check_env_manager_version separated (detected miniconda true false)
            (session [])) = Raise ValueError.
Proof.
  intros candidate silent separated. split; [|split].
  - apply (proj1 (check_env_manager_version_malformed candidate
                    (detected miniconda true false) miniconda "conda --version"
                    after_last_space "23.5.0" (session [])
                    {| returncode := 0; stdout := Some ("conda 24.1.0rc1" ++ LF);
                       stderr := Some "" |}
                    ("conda 24.1.0rc1" ++ LF)
                    eq_refl eq_refl eq_refl eq_refl eq_refl)).
    right. exists "24.1.0rc1", "0rc1". repeat split; try reflexivity.
    right. right. left. reflexivity.
  - apply (proj1 (check_env_manager_version_malformed silent
                    (detected miniconda true false) miniconda "conda --version"
                    after_last_space "23.5.0" (session [])
                    {| returncode := 0; stdout := Some ""; stderr := Some "" |} ""
                    eq_refl eq_refl eq_refl eq_refl eq_refl)).
    left. split; [reflexivity | intros []].
  - apply (proj1 (check_env_manager_version_malformed separated
                    (detected miniconda true false) miniconda "conda --version"
                    after_last_space "23.5.0" (session [])
                    {| returncode := 0;
                       stdout := Some ("conda 23.5." ++ String "028" "0" ++ LF);
                       stderr := Some "" |}
                    ("conda 23.5." ++ String "028" "0" ++ LF)
                    eq_refl eq_refl eq_refl eq_refl eq_refl)).
    right. exists ("23.5." ++ String "028" "0"), (String "028" "0").
    repeat split; try reflexivity.
    right. right. left. reflexivity.
Defined.

Lemma tuple_lt_trans (a b c : list Z) :
  Py.tuple_lt a b = true -> Py.tuple_lt b c = true -> Py.tuple_lt a c = true.
Proof.
  revert b c. induction a as [|x a IH]; intros [|y b] [|z c];
    cbn [Py.tuple_lt]; try discriminate; try reflexivity.
  destruct (Z.eqb_spec x y) as [->|Hxy].
  - destruct (Z.eqb_spec y z) as [->|Hyz]; [apply IH | auto].
  - destruct (Z.eqb_spec y z) as [->|Hyz].
    + intros H _. destruct (Z.eqb_spec x z); [contradiction | exact H].
    + rewrite !Z.ltb_lt. intros H1 H2.
      destruct (Z.eqb_spec x z) as [->|Hxz]; [lia|].
      apply Z.ltb_lt. lia.
Qed.

(** X5. The check is monotone in the version found: where a version passes,
    every version that is equal to it or above it, field by field, passes
    too. *)
Theorem check_env_manager_version_monotone
    m1 m2 self manager cmd extract required s1 s2
    result1 result2 out1 out2 present1 present2 t1 t2 :
  env_manager self = Some manager ->
  version_rule (executable manager) = Some (cmd, extract, required) ->
  dry_run self && negb (env_manager_preinitialized self) = false ->
  fst (run_env_manager_cmd m1 self cmd
         {| as_comment := false; capture_output := true |} s1) = Return result1 ->
  stdout result1 = Some out1 ->
  extract (Py.strip out1) = Some present1 ->
  version_string_to_tuple present1 = Some t1 ->
  fst (run_env_manager_cmd m2 self cmd
         {| as_comment := false; capture_output := true |} s2) = Return result2 ->
  stdout result2 = Some out2 ->
  extract (Py.strip out2) = Some present2 ->
  version_string_to_tuple present2 = Some t2 ->
  t1 = t2 \/ Py.tuple_lt t1 t2 = true ->
  fst (check_env_manager_version m1 self s1) = Return tt ->
  fst (check_env_manager_version m2 self s2) = Return tt.
Proof.
  intros Hm Hrule Hreal Hrun1 Hout1 Hp1 Ht1 Hrun2 Hout2 Hp2 Ht2 Hle.
  rewrite (check_env_manager_version_real m1 self manager cmd extract
             required s1 result1 Hm Hrule Hreal Hrun1), Hout1, Hp1, Ht1.
  rewrite (check_env_manager_version_real m2 self manager cmd extract
             required s2 result2 Hm Hrule Hreal Hrun2), Hout2, Hp2, Ht2.
  destruct (version_string_to_tuple required) as [tr|]; [|discriminate].
  destruct (Py.tuple_lt t1 tr) eqn:H1; [discriminate|]. intros _.
  destruct (Py.tuple_lt t2 tr) eqn:H2; [|reflexivity].
  exfalso. destruct Hle as [->|Hlt]; [congruence|].
  rewrite (tuple_lt_trans t1 t2 tr Hlt H2) in H1. discriminate H1.
Qed.

(** Version 23.5.0 passes, so does 24.1.2. *)
Lemma check_env_manager_version_monotone_witness :
  let m1 := machine ["conda"] ["/home/u/miniconda3/bin/activate"]
              (quiet_shell ("conda 23.5.0" ++ LF)) in
  let m2 := machine ["conda"] ["/home/u/miniconda3/bin/activate"]
              (quiet_shell ("conda 24.1.2" ++ LF)) in
  fst (check_env_manager_version m2 (detected miniconda true false) (session []))
  = Return tt.
Proof.
  intros m1 m2.
  apply (check_env_manager_version_monotone m1 m2
           (detected miniconda true false) miniconda "conda --version"
           after_last_space "23.5.0" (session []) (session [])
           {| returncode := 0; stdout := Some ("conda 23.5.0" ++ LF);
              stderr := Some "" |}
           {| returncode := 0; stdout := Some ("conda 24.1.2" ++ LF);
              stderr := Some "" |}
           ("conda 23.5.0" ++ LF) ("conda 24.1.2" ++ LF) "23.5.0" "24.1.2"
           [23; 5; 0] [24; 1; 2]);
    try reflexivity.
  right. reflexivity.
Defined.

(** ** The installation of a manager *)

Lemma run_cmd_result m cmd kw s :
  let shown := if as_comment kw then "# " ++ cmd else cmd in
  let output := subprocess_run m shown (capture_output kw) in
  let echoed := Ran shown (capture_output kw)
                :: Printed ("`" ++ colorize m "cmd" shown ++ "`") :: log s in
  run_cmd m cmd kw s
  = if returncode output =? 0 then
      (Return output, {| stdin := stdin s; log := echoed |})
    else
      (Raise (RAILInstallationError (framed (run_cmd_error_message output))
                (returncode output)),
       {| stdin := stdin s;
          log := Printed (colorize m "error"
                            (framed (run_cmd_error_message output)))
                 :: echoed |}).
Proof.
  intros shown output echoed. unfold run_cmd. fold shown. fold output.
  run_monad. destruct (returncode output =? 0); reflexivity.
Qed.

Lemma uname_convert_session self use_case s :
  snd (uname_convert self use_case s) = s.
Proof.
  unfold uname_convert.
  repeat match goal with
         | |- context [if ?b then _ else _] => destruct b
         end; reflexivity.
Qed.

(** The command of a download starts with the fetcher and the address. *)
Lemma run_fetch_cmd_shape m self url file kw :
  exists tail,
    run_fetch_cmd m self url file kw
    = run_cmd m (fetcher self ++ " " ++ url ++ tail) kw.
Proof.
  unfold run_fetch_cmd.
  destruct (String.eqb (fetcher self) "curl"), (String.eqb (fetcher self) "wget"),
    (verbose self); cbn [negb];
    repeat rewrite append_assoc;
    first [ eexists; reflexivity
          | exists ""; rewrite append_empty_r; reflexivity ].
Qed.

Lemma uname_convert_pure self use_case s s0 :
  uname_convert self use_case s = (fst (uname_convert self use_case s0), s).
Proof.
  unfold uname_convert.
  repeat match goal with
         | |- context [if ?b then _ else _] => destruct b
         end; reflexivity.
Qed.

(** X6. Outside a dry run, the installation of a manager that has an
    installer makes the directory, downloads the installer into it, runs it
    and removes it, in this order, and the manager becomes the installer's
    manager.  When the download fails the installer is not run; when the
    installer fails it is not removed; in both cases the call ends in the
    error of the failed command, with its code, and the directory stays. *)
Theorem install_env_manager_steps m self e template d opts ka link s :
  dry_run self = false ->
  installer_link e = Some template ->
  directory e = Some d ->
  installer_options e = Some opts ->
  fst (uname_convert self (executable e) s) = Return ka ->
  Py.format template [("kernel", fst ka); ("architecture", snd ka)] = Some link ->
  let dir := expanduser (home m) d in
  let path := joinpath dir (name e ++ "-installer.sh") in
  let installer :=
    "bash " ++ path ++ " " ++ Py.join " " opts ++ " " ++ dir in
  let quiet := negb (verbose self) in
  exists tail,
    let fetch := fetcher self ++ " " ++ link ++ tail in
    let downloaded := returncode (subprocess_run m fetch false) in
    let installed := returncode (subprocess_run m installer quiet) in
    let result := install_env_manager m self e s in
    (downloaded <> 0 ->
     (exists message,
        fst result = Raise (RAILInstallationError message downloaded))
     /\ actions (log (snd result))
        = (actions (log s) ++ [Mkdir dir; Ran fetch false])%list)
    /\ (downloaded = 0 -> installed <> 0 ->
        (exists message,
           fst result = Raise (RAILInstallationError message installed))
        /\ actions (log (snd result))
           = (actions (log s)
              ++ [Mkdir dir; Ran fetch false; Ran installer quiet])%list)
    /\ (downloaded = 0 -> installed = 0 ->
        fst result = Return (set_env_manager self (Some e))
        /\ actions (log (snd result))
           = (actions (log s)
              ++ [Mkdir dir; Ran fetch false; Ran installer quiet;
                  Unlink path])%list).
Proof.
  intros Hdry Hlink Hdir Hopts Hka Hformat dir path installer quiet.
  destruct ka as [kern arch]. cbn [fst snd] in Hformat.
  destruct (run_fetch_cmd_shape m self link path
              {| as_comment := false; capture_output := false |})
    as (tail & Hfetch).
  exists tail. subst dir path installer quiet. cbv zeta.
  remember (install_env_manager m self e s) as result eqn:Hres.
  unfold install_env_manager in Hres.
  rewrite Hdry, Hlink, Hdir, Hopts in Hres. cbn [negb] in Hres.
  unfold bind at 1 in Hres. unfold print_header at 1 in Hres.
  unfold emit at 1 in Hres. unfold bind at 1 in Hres.
  rewrite (uname_convert_pure self (executable e) _ s), Hka in Hres.
  revert Hres. run_monad. rewrite Hformat, Hfetch.
  rewrite run_cmd_result. cbv zeta. cbn [as_comment capture_output stdin log].
  destruct (Z.eqb_spec
              (returncode (subprocess_run m (fetcher self ++ " " ++ link ++ tail)
                             false)) 0) as [Hd|Hd].
  - rewrite run_cmd_result. cbv zeta.
    cbn [as_comment capture_output stdin log].
    match goal with
    | |- context [returncode (subprocess_run m ?c ?q) =? 0] =>
        destruct (Z.eqb_spec (returncode (subprocess_run m c q)) 0) as [Hi|Hi]
    end.
    + intros ->. split; [intros H; contradiction|].
      split; [intros _ H; contradiction|].
      intros _ _. split; [reflexivity|].
      cbn [snd log actions]. rewrite <- !app_assoc. reflexivity.
    + intros ->. split; [intros H; contradiction|].
      split; [|intros _ H; contradiction].
      intros _ _. split; [eexists; reflexivity|].
      cbn [snd log actions]. rewrite <- !app_assoc. reflexivity.
  - intros ->. split; [|split; intros H; contradiction].
    intros _. split; [eexists; reflexivity|].
    cbn [snd log actions]. rewrite <- !app_assoc. reflexivity.
Qed.

(** Both commands succeed: the four steps are taken. *)
Lemma install_env_manager_steps_witness :
  let m := machine [] [] (quiet_shell "") in
  fst (install_env_manager m (fresh false) mamba (session []))
  = Return (set_env_manager (fresh false) (Some mamba))
  /\ exists fetch,
       actions (log (snd (install_env_manager m (fresh false) mamba (session []))))
       = [Mkdir "/home/u/miniforge3"; Ran fetch false;
          Ran "bash /home/u/miniforge3/mamba-installer.sh -b -u -p /home/u/miniforge3"
            true;
          Unlink "/home/u/miniforge3/mamba-installer.sh"].
Proof.
  intros m.
  destruct (install_env_manager_steps m (fresh false) mamba
              "https://github.com/conda-forge/miniforge/releases/latest/download/Miniforge3-{kernel}-{architecture}.sh"
              "/home/u/miniforge3" ["-b"; "-u"; "-p"] ("Linux", "x86_64")
              "https://github.com/conda-forge/miniforge/releases/latest/download/Miniforge3-Linux-x86_64.sh"
              (session []) eq_refl eq_refl eq_refl eq_refl eq_refl eq_refl)
    as (tail & _ & _ & Hok).
  destruct (Hok eq_refl eq_refl) as [Hreturn Hactions].
  split; [exact Hreturn|]. eexists. exact Hactions.
Defined.

Lemma install_env_manager_returns m self to_install s self' s' :
  install_env_manager m self to_install s = (Return self', s') ->
  self' = set_env_manager self (Some to_install)
  /\ installer_link to_install <> None.
Proof.
  unfold install_env_manager. intros H.
  step H u0 s0 E0. step H ka s1 E1.
  step H template s2 E2. apply expect_returns in E2 as [Hlink _].
  step H link s3 E3. step H dir s4 E4. step H u5 s5 E5. step H u6 s6 E6.
  step H r7 s7 E7. step H u8 s8 E8. step H opts s9 E9. step H r10 s10 E10.
  step H u11 s11 E11. cbn in H. injection H as <- _.
  split; [reflexivity | congruence].
Qed.

Lemma hd_error_filter {A} (f : A -> bool) (l : list A) x :
  hd_error (filter f l) = Some x -> In x l /\ f x = true.
Proof.
  induction l as [|y l IH]; cbn; [discriminate|].
  destruct (f y) eqn:Hy; cbn.
  - intros H. injection H as <-. auto.
  - intros H. destruct (IH H). auto.
Qed.

Lemma hd_error_filter_none {A} (f : A -> bool) (l : list A) :
  (forall x, In x l -> f x = false) -> hd_error (filter f l) = None.
Proof.
  induction l as [|y l IH]; cbn; [reflexivity|]. intros H.
  rewrite (H y (or_introl eq_refl)). apply IH. intros x Hx. apply H. now right.
Qed.

(** The entries of the registry that have an installer are the installable
    ones. *)
Lemma registry_installer_link home_dir e :
  In e (ENV_MANAGER_INFO home_dir) ->
  (installer_link e <> None <-> installable e = true).
Proof.
  intros [<-|[<-|[<-|[<-|[]]]]]; cbn; split; congruence.
Qed.

(** X7. With no manager detected and a manager asked for by name,
    [find_env_manager] does not return without one: if it returns, the
    installer's manager is the installable entry of the registry with that
    name, put there by the installation.  A name that no entry has ends in
    [IndexError], and the name of an entry without an installer in
    [AttributeError]; in both cases nothing was run, made or removed. *)
Theorem find_env_manager_installs_requested m self requested s :
  env_manager self = None ->
  (forall e, In e (ENV_MANAGER_INFO (home m)) -> detectable m e = false) ->
  (forall self' s',
     find_env_manager m self (Some requested) s = (Return self', s') ->
     exists e,
       In e (ENV_MANAGER_INFO (home m)) /\ name e = requested
       /\ installable e = true /\ self' = set_env_manager self (Some e))
  /\ ((forall e, In e (ENV_MANAGER_INFO (home m)) -> name e <> requested) ->
      fst (find_env_manager m self (Some requested) s) = Raise IndexError
      /\ actions (log (snd (find_env_manager m self (Some requested) s)))
         = actions (log s))
  /\ (forall e,
        In e (ENV_MANAGER_INFO (home m)) -> name e = requested ->
        installable e = false ->
        fst (find_env_manager m self (Some requested) s) = Raise AttributeError
        /\ actions (log (snd (find_env_manager m self (Some requested) s)))
           = actions (log s)).
Proof.
  intros Hnone Hoff.
  assert (Hstart :
            find_env_manager m self (Some requested) s
            = (self2 <-
                 (text <- expect KeyError
                    (Py.format MESSAGE_NO_ENV_MANAGER_FOUND
                       [("executables",
                         Py.join "/"
                           (map (colorize m "cmd")
                              (set_of (map executable
                                         (ENV_MANAGER_INFO (home m))))))]) ;;
                  print text ;;;
                  chosen <- ret requested ;;
                  to_install <- expect IndexError
                    (hd_error (filter (fun e => String.eqb (name e) chosen)
                                 (ENV_MANAGER_INFO (home m)))) ;;
                  install_env_manager m self to_install) ;;
               setup_env_manager m self2 ;;;
               check_env_manager_version m self2 ;;; ret self2)
                {| stdin := stdin s;
                   log := Header "Checking for a pre-installed Python virtual environment manager"
                          :: log s |}).
  { unfold find_env_manager. cbv zeta.
    unfold bind at 1. unfold print_header at 1. unfold emit at 1.
    unfold bind at 1.
    destruct (find_env_manager_loop_none m self None
                (ENV_MANAGER_INFO (home m))
                {| stdin := stdin s;
                   log := Header "Checking for a pre-installed Python virtual environment manager"
                          :: log s |} Hoff) as (seen & ->).
    rewrite Hnone. reflexivity. }
  assert (Htext : exists text,
             Py.format MESSAGE_NO_ENV_MANAGER_FOUND
               [("executables",
                 Py.join "/"
                   (map (colorize m "cmd")
                      (set_of (map executable (ENV_MANAGER_INFO (home m))))))]
             = Some text) by (eexists; reflexivity).
  destruct Htext as (text & Htext).
  split; [|split].
  - intros self' s' H. rewrite Hstart in H.
    step H self2 s2 E2.
    step E2 text' s3 E3. step E2 u4 s4 E4. step E2 chosen s5 E5.
    cbn in E5. injection E5 as <- <-.
    step E2 to_install s6 E6. apply expect_returns in E6 as [Hhd _].
    apply hd_error_filter in Hhd as [Hin Hname].
    apply String.eqb_eq in Hname.
    apply install_env_manager_returns in E2 as [-> Hlink].
    step H u7 s7 E7. step H u8 s8 E8. cbn in H. injection H as <- _.
    exists to_install. repeat split; try assumption.
    now apply (registry_installer_link (home m)).
  - intros Hno. rewrite Hstart, Htext. run_monad.
    rewrite (hd_error_filter_none _ _
               (fun e He => proj2 (String.eqb_neq _ _) (Hno e He))).
    split; reflexivity.
  - intros e Hin Hname Hinst. rewrite Hstart, Htext.
    destruct Hin as [<-|[<-|[<-|[<-|[]]]]]; try discriminate Hinst;
      cbn in Hname; subst requested; split; reflexivity.
Qed.

(** A manager that the registry does not have, one that it cannot install,
    and one that it installs. *)
Lemma find_env_manager_installs_requested_witness :
  let m := machine [] [] (quiet_shell ("conda 24.1.2" ++ LF)) in
  fst (find_env_manager m (fresh false) (Some "pixi") (session []))
  = Raise IndexError
  /\ fst (find_env_manager m (fresh false) (Some "micromamba") (session []))
     = Raise AttributeError
  /\ exists e,
       In e (ENV_MANAGER_INFO (home m)) /\ name e = "mamba"
       /\ installable e = true
       /\ fst (find_env_manager m (fresh false) (Some "mamba") (session []))
          = Return (set_env_manager (fresh false) (Some e)).
Proof.
  intros m.
  assert (Hoff : forall e, In e (ENV_MANAGER_INFO (home m)) ->
                           detectable m e = false)
    by (intros e [<-|[<-|[<-|[<-|[]]]]]; reflexivity).
  split; [|split].
  - apply (find_env_manager_installs_requested m (fresh false) "pixi"
             (session []) eq_refl Hoff).
    intros e [<-|[<-|[<-|[<-|[]]]]]; discriminate.
  - apply (proj2 (proj2 (find_env_manager_installs_requested m (fresh false)
                           "micromamba" (session []) eq_refl Hoff))
             micromamba); [left; reflexivity | reflexivity | reflexivity].
  - destruct (proj1 (find_env_manager_installs_requested m (fresh false)
                       "mamba" (session []) eq_refl Hoff)
                (set_env_manager (fresh false) (Some mamba))
                (snd (find_env_manager m (fresh false) (Some "mamba")
                        (session []))))
      as (e & Hin & Hname & Hinst & Heq).
    + vm_compute. reflexivity.
    + exists e. repeat split; try assumption.
      rewrite <- Heq. vm_compute. reflexivity.
Defined.

Lemma sorted_installable_names home_dir :
  sorted (map name (filter installable (ENV_MANAGER_INFO home_dir)))
  = ["mamba"; "miniconda"].
Proof. reflexivity. Qed.

(** X8. With no manager detected and none asked for, [find_env_manager]
    asks which one to install.  Off a terminal the question is the error
    raised, and nothing was run, made or removed.  On a terminal, if the
    call returns, the installer's manager is the entry [mamba] or the entry
    [miniconda] of the registry, as one of the lines typed said. *)
Theorem find_env_manager_asks_which m self s :
  env_manager self = None ->
  (forall e, In e (ENV_MANAGER_INFO (home m)) -> detectable m e = false) ->
  (isatty m = false ->
   fst (find_env_manager m self None s)
   = Raise (RAILInstallationError
              (LF ++ "User input needed, but output device is not a tty. To run the RAIL installation script"
               ++ LF ++ "in an unattended mode, ensure all choices are given as command-line options."
               ++ LF ++ LF
               ++ "Input needed: Which Python environment manager should be installed?"
               ++ LF) 1)
   /\ actions (log (snd (find_env_manager m self None s))) = actions (log s))
  /\ (forall self' s',
        find_env_manager m self None s = (Return self', s') ->
        exists e,
          In e (ENV_MANAGER_INFO (home m))
          /\ (name e = "mamba" \/ name e = "miniconda")
          /\ installable e = true
          /\ self' = set_env_manager self (Some e)).
Proof.
  intros Hnone Hoff.
  assert (Hstart :
            find_env_manager m self None s
            = (self2 <-
                 (text <- expect KeyError
                    (Py.format MESSAGE_NO_ENV_MANAGER_FOUND
                       [("executables",
                         Py.join "/"
                           (map (colorize m "cmd")
                              (set_of (map executable
                                         (ENV_MANAGER_INFO (home m))))))]) ;;
                  print text ;;;
                  chosen <- request_input m
                    "Which Python environment manager should be installed?"
                    (sorted (map name (filter installable
                                         (ENV_MANAGER_INFO (home m)))))
                    false None ;;
                  to_install <- expect IndexError
                    (hd_error (filter (fun e => String.eqb (name e) chosen)
                                 (ENV_MANAGER_INFO (home m)))) ;;
                  install_env_manager m self to_install) ;;
               setup_env_manager m self2 ;;;
               check_env_manager_version m self2 ;;; ret self2)
                {| stdin := stdin s;
                   log := Header "Checking for a pre-installed Python virtual environment manager"
                          :: log s |}).
  { unfold find_env_manager. cbv zeta.
    unfold bind at 1. unfold print_header at 1. unfold emit at 1.
    unfold bind at 1.
    destruct (find_env_manager_loop_none m self None
                (ENV_MANAGER_INFO (home m))
                {| stdin := stdin s;
                   log := Header "Checking for a pre-installed Python virtual environment manager"
                          :: log s |} Hoff) as (seen & ->).
    rewrite Hnone. reflexivity. }
  split.
  - intros Htty. rewrite Hstart.
    assert (Htext : exists text,
               Py.format MESSAGE_NO_ENV_MANAGER_FOUND
                 [("executables",
                   Py.join "/"
                     (map (colorize m "cmd")
                        (set_of (map executable (ENV_MANAGER_INFO (home m))))))]
               = Some text) by (eexists; reflexivity).
    destruct Htext as (text & ->). run_monad.
    rewrite (request_input_raises_off_terminal m _ _ false None _ Htty).
    split; reflexivity.
  - intros self' s' H. rewrite Hstart in H.
    step H self2 s2 E2.
    step E2 text' s3 E3. step E2 u4 s4 E4. step E2 chosen s5 E5.
    destruct (request_input_returns _ _ _ _ _ _ _ _ E5) as [Hchosen _].
    rewrite sorted_installable_names in Hchosen.
    cbn [negb andb orb] in Hchosen. apply mem_In in Hchosen.
    step E2 to_install s6 E6. apply expect_returns in E6 as [Hhd _].
    apply hd_error_filter in Hhd as [Hin Hname].
    apply String.eqb_eq in Hname.
    apply install_env_manager_returns in E2 as [-> Hlink].
    step H u7 s7 E7. step H u8 s8 E8. cbn in H. injection H as <- _.
    exists to_install. repeat split; try assumption.
    + rewrite Hname. destruct Hchosen as [<-|[<-|[]]]; auto.
    + now apply (registry_installer_link (home m)).
Qed.

(** No manager, no request, no terminal. *)
Lemma find_env_manager_asks_which_witness :
  let m := {| which := fun _ => false; path_exists := fun _ => false;
              isatty := false; home := "/home/u"; environ_SHELL := None;
              subprocess_run := quiet_shell ""; json_loads := fun _ => None |} in
  actions (log (snd (find_env_manager m (fresh false) None (session [])))) = [].
Proof.
  intros m.
  assert (Hoff : forall e, In e (ENV_MANAGER_INFO (home m)) ->
                           detectable m e = false)
    by (intros e [<-|[<-|[<-|[<-|[]]]]]; reflexivity).
  destruct (proj1 (find_env_manager_asks_which m (fresh false) (session [])
                     eq_refl Hoff) eq_refl) as [_ Hactions].
  exact Hactions.
Defined.

(** ** The checks made before the installer is built *)

Lemma check_compilers_returns m compilers s u s' :
  check_compilers m compilers s = (Return u, s') ->
  commands (log s')
  = (commands (log s) ++ map (fun c => (c ++ " --version")%string) compilers)%list
  /\ forall c, In c compilers ->
       exists out,
         stdout (subprocess_run m (c ++ " --version") true) = Some out
         /\ Py.contains "clang" out = false.
Proof.
  revert s. induction compilers as [|compiler rest IH]; intros s H.
  - cbn in H. injection H as _ <-. cbn. rewrite app_nil_r.
    split; [reflexivity | intros c []].
  - cbn [check_compilers] in H.
    step H res s1 E1.
    pose proof (run_cmd_result m (compiler ++ " --version")
                  {| as_comment := false; capture_output := true |} s) as Hr.
    cbv zeta in Hr. cbn [as_comment capture_output] in Hr.
    rewrite E1 in Hr.
    destruct (returncode (subprocess_run m (compiler ++ " --version") true) =? 0);
      [|discriminate Hr].
    injection Hr as -> ->.
    step H out s2 E2. apply expect_returns in E2 as [Hout ->].
    step H u3 s3 E3.
    destruct (Py.contains "clang" out) eqn:Hclang.
    + exfalso. revert E3. run_monad.
      destruct (Py.format ERROR_NO_CLANG _); discriminate.
    + cbn in E3. injection E3 as _ <-.
      destruct (IH _ H) as [Hc Hall]. split.
      * rewrite Hc. cbn [log commands map]. rewrite <- app_assoc. reflexivity.
      * intros c [<-|Hin]; [eauto | auto].
Qed.

Lemma check_requirements_facts m environ_CC environ_CXX s fetcher s' :
  check_requirements m environ_CC environ_CXX s = (Return fetcher, s') ->
  which m fetcher = true
  /\ (fetcher = "wget" \/ fetcher = "curl")
  /\ (which m "wget" = true -> fetcher = "wget")
  /\ (forall tool, In tool ["bash"; "gcc"; "gfortran"; "g++"; "make"] ->
                   which m tool = true)
  /\ commands (log s')
     = (commands (log s)
        ++ [(match environ_CC with Some c => c | None => "gcc" end
             ++ " --version")%string;
            (match environ_CXX with Some c => c | None => "g++" end
             ++ " --version")%string])%list.
Proof.
  unfold check_requirements. cbv zeta. intros H.
  step H u0 s0 E0. cbn in E0. injection E0 as _ <-.
  cbn [filter map] in H.
  destruct (which m "bash") eqn:Hbash, (which m "gcc") eqn:Hgcc,
    (which m "gfortran") eqn:Hgfortran, (which m "g++") eqn:Hgpp,
    (which m "make") eqn:Hmake, (which m "curl") eqn:Hcurl,
    (which m "wget") eqn:Hwget;
    cbn [filter map negb forallb andb app List.length Nat.ltb Nat.leb] in H;
    step H u1 s1 E1;
    try (exfalso; revert E1; run_monad;
         match goal with
         | |- context [Py.format ?t ?b] => destruct (Py.format t b)
         end; discriminate);
    cbn in E1; injection E1 as _ <-;
    step H u2 s2 E2; apply check_compilers_returns in E2 as [Hc _];
    cbn in H; injection H as <- <-;
    (split; [assumption|]); (split; [auto|]); (split; [congruence|]);
    (split; [intros tool [<-|[<-|[<-|[<-|[<-|[]]]]]]; assumption|]);
    rewrite Hc; reflexivity.
Qed.

(** X9. If [check_requirements] returns, the fetcher it names is [wget] or
    [curl] and is on the search path, [wget] being taken whenever it is
    there; the five required tools are on the search path; and the only
    commands run are the version queries of the two compilers, neither of
    which mentioned [clang]. *)
Theorem check_requirements_returns m environ_CC environ_CXX s fetcher s' :
  check_requirements m environ_CC environ_CXX s = (Return fetcher, s') ->
  which m fetcher = true
  /\ (fetcher = "wget" \/ fetcher = "curl")
  /\ (which m "wget" = true -> fetcher = "wget")
  /\ (forall tool, In tool ["bash"; "gcc"; "gfortran"; "g++"; "make"] ->
                   which m tool = true)
  /\ commands (log s')
     = (commands (log s)
        ++ [(match environ_CC with Some c => c | None => "gcc" end
             ++ " --version")%string;
            (match environ_CXX with Some c => c | None => "g++" end
             ++ " --version")%string])%list.
Proof.
  apply check_requirements_facts.
Qed.

(** Every tool is there, [wget] and [curl] both: [wget] is taken. *)
Lemma check_requirements_returns_witness :
  let m := machine ["bash"; "gcc"; "gfortran"; "g++"; "make"; "curl"; "wget"] []
             (quiet_shell "gcc (GCC) 13.2.0") in
  fst (check_requirements m None (Some "/opt/gnu/g++") (session []))
  = Return "wget"
  /\ commands (log (snd (check_requirements m None (Some "/opt/gnu/g++")
                           (session []))))
     = ["gcc --version"; "/opt/gnu/g++ --version"].
Proof.
  intros m.
  assert (Hrun : check_requirements m None (Some "/opt/gnu/g++") (session [])
                 = (Return "wget",
                    snd (check_requirements m None (Some "/opt/gnu/g++")
                           (session []))))
    by (vm_compute; reflexivity).
  destruct (check_requirements_returns m None (Some "/opt/gnu/g++") (session [])
              "wget" _ Hrun) as (_ & _ & _ & _ & Hc).
  rewrite Hrun at 1. split; [reflexivity | exact Hc].
Defined.

Lemma format_missing_prerequisites missing :
  Py.format ERROR_MISSING_PREREQUISITES [("missing", missing)]
  = Some (LF ++ "Missing prerequisite(s): " ++ missing ++ LF ++ LF
          ++ "See the RAIL documentation page on required programs for more information."
          ++ LF).
Proof. reflexivity. Qed.

(** X10. When one of the five required tools is not on the search path, or
    neither [curl] nor [wget] is, [check_requirements] ends with code 127
    before any command is run.  The message lists what is missing: the
    required tools that are absent, in the order of the list, then
    [curl or wget] when both are absent. *)
Theorem check_requirements_missing m environ_CC environ_CXX s :
  let required := ["bash"; "gcc"; "gfortran"; "g++"; "make"] in
  let absent := filter (fun tool => negb (which m tool)) required in
  let missing :=
    (absent ++ if which m "curl" || which m "wget" then [] else ["curl or wget"])%list in
  missing <> [] ->
  check_requirements m environ_CC environ_CXX s
  = (Raise (RAILInstallationError
              (LF ++ "Missing prerequisite(s): " ++ Py.join ", " missing
               ++ LF ++ LF
               ++ "See the RAIL documentation page on required programs for more information."
               ++ LF) 127),
     {| stdin := stdin s;
        log := Printed
                 (colorize m "error"
                    (LF ++ "Missing prerequisite(s): " ++ Py.join ", " missing
                     ++ LF ++ LF
                     ++ "See the RAIL documentation page on required programs for more information."
                     ++ LF))
               :: Header "Checking installation requirements" :: log s |}).
Proof.
  intros required absent missing Hmissing.
  unfold check_requirements. cbv zeta.
  change (filter (fun cmd => negb (which m cmd))
            ["bash"; "gcc"; "gfortran"; "g++"; "make"]) with absent.
  assert (Hsame :
            (if forallb (fun b : bool => b)
                  (map (fun cmd => negb (which m cmd)) ["curl"; "wget"])
             then (absent ++ [Py.join " or " ["curl"; "wget"]])%list
             else absent) = missing).
  { unfold missing. cbn [map forallb Py.join].
    destruct (which m "curl"), (which m "wget"); cbn [negb andb orb];
      rewrite ?app_nil_r; reflexivity. }
  rewrite Hsame.
  assert (Hlen : (0 <? List.length missing)%nat = true)
    by (destruct missing; [contradiction | reflexivity]).
  rewrite Hlen, format_missing_prerequisites. run_monad.
  assert (Hframed :
            framed (LF ++ "Missing prerequisite(s): " ++ Py.join ", " missing
                    ++ LF ++ LF
                    ++ "See the RAIL documentation page on required programs for more information."
                    ++ LF)
            = LF ++ "Missing prerequisite(s): " ++ Py.join ", " missing
              ++ LF ++ LF
              ++ "See the RAIL documentation page on required programs for more information."
              ++ LF).
  { unfold framed.
    assert (Hs : forall x, Py.startswith "010" (LF ++ x) = true) by reflexivity.
    rewrite Hs. repeat (rewrite endswith_append by nonempty). reflexivity. }
  rewrite Hframed. reflexivity.
Qed.

(** No [gfortran], and no fetcher. *)
Lemma check_requirements_missing_witness :
  let m := machine ["bash"; "gcc"; "g++"; "make"] [] (quiet_shell "") in
  fst (check_requirements m None None (session []))
  = Raise (RAILInstallationError
             (LF ++ "Missing prerequisite(s): gfortran, curl or wget"
              ++ LF ++ LF
              ++ "See the RAIL documentation page on required programs for more information."
              ++ LF) 127).
Proof.
  intros m.
  rewrite (check_requirements_missing m None None (session [])).
  - reflexivity.
  - discriminate.
Defined.

(** ** The packages to install *)

Lemma ask_each_returns m algos :
  forall s chosen s',
    ask_each m algos s = (Return chosen, s') ->
    forall p, In p chosen -> In p algos.
Proof.
  induction algos as [|algo rest IH]; intros s chosen s' H; cbn [ask_each] in H.
  - cbn in H. injection H as <- _. intros p [].
  - step H answer s1 E1. step H others s2 E2.
    cbn in H. injection H as <- _.
    intros p Hp. destruct (String.eqb answer "y").
    + destruct Hp as [<-|Hp]; [left; reflexivity | right; exact (IH _ _ _ E2 p Hp)].
    + right. exact (IH _ _ _ E2 p Hp).
Qed.

Lemma choose_algorithms_returns m sel s chosen s' :
  choose_algorithms m sel s = (Return chosen, s') ->
  (forall l, sel = Some (Packages l) -> chosen = l /\ s' = s)
  /\ ((forall l, sel <> Some (Packages l)) ->
      forall p, In p chosen -> In p EXTRA_RAIL_PACKAGES).
Proof.
  unfold choose_algorithms. intros H. step H picked s1 E1.
  destruct sel as [[w|l]|].
  - cbn in E1. injection E1 as <- <-. split; [intros l Hl; discriminate Hl|].
    intros _ p Hp.
    destruct (String.eqb w "all");
      [cbn in H; injection H as <- _; exact Hp|].
    destruct (String.eqb w "none");
      [cbn in H; injection H as <- _; destruct Hp|].
    exact (ask_each_returns _ _ _ _ _ H p Hp).
  - cbn in E1. injection E1 as <- <-. cbn in H. injection H as <- <-.
    split; [intros l' Hl; injection Hl as <-; auto|].
    intros Hno. exfalso. exact (Hno l eq_refl).
  - split; [intros l Hl; discriminate Hl|]. intros _ p Hp.
    step E1 u2 s2 E2. step E1 answer s3 E3. cbn in E1. injection E1 as <- <-.
    destruct (String.eqb answer "all");
      [cbn in H; injection H as <- _; exact Hp|].
    destruct (String.eqb answer "none");
      [cbn in H; injection H as <- _; destruct Hp|].
    exact (ask_each_returns _ _ _ _ _ H p Hp).
Qed.

Lemma check_algorithms_selection_returns m cli s sel s' :
  check_algorithms_selection m cli s = (Return sel, s') ->
  s' = s
  /\ match sel with
     | None => cli = None
     | Some (Word w) => cli = Some [w] /\ (w = "all" \/ w = "none")
     | Some (Packages l) =>
         cli = Some l /\ forall p, In p l -> In p EXTRA_RAIL_PACKAGES
     end.
Proof.
  unfold check_algorithms_selection. destruct cli as [l|].
  - destruct ((List.length l =? 1)%nat && Py.mem (hd "" l) ["all"; "none"])
      eqn:Hsingle.
    + intros H. cbn in H. injection H as <- <-. split; [reflexivity|].
      apply andb_prop in Hsingle as [Hlen Hmem].
      destruct l as [|w [|x l]]; try discriminate Hlen. cbn [hd] in *.
      split; [reflexivity|]. apply mem_In in Hmem.
      destruct Hmem as [<-|[<-|[]]]; auto.
    + cbv zeta.
      destruct (existsb (fun b : bool => b)
                  (map (fun s0 => negb (Py.mem s0 EXTRA_RAIL_PACKAGES)) l))
        eqn:Hbad.
      * run_monad. discriminate.
      * intros H. cbn in H. injection H as <- <-. split; [reflexivity|].
        split; [reflexivity|]. intros p Hp. apply mem_In.
        destruct (Py.mem p EXTRA_RAIL_PACKAGES) eqn:Hmem; [reflexivity|].
        exfalso. assert (Hex : existsb (fun b : bool => b)
                   (map (fun s0 => negb (Py.mem s0 EXTRA_RAIL_PACKAGES)) l) = true).
        { apply existsb_exists. exists true. split; [|reflexivity].
          apply in_map_iff. exists p. rewrite Hmem. auto. }
        congruence.
  - intros H. cbn in H. injection H as <- <-. auto.
Qed.

(** X11. Whatever is given on the command line and whatever is typed, the
    packages that [choose_algorithms] returns for a selection that passed
    [check_algorithms_selection] are all in [EXTRA_RAIL_PACKAGES]; a list
    given on the command line is returned as it is, without a question. *)
Theorem chosen_algorithms_are_rail_packages m cli s sel s1 chosen s2 :
  check_algorithms_selection m cli s = (Return sel, s1) ->
  choose_algorithms m sel s1 = (Return chosen, s2) ->
  (forall p, In p chosen -> In p EXTRA_RAIL_PACKAGES)
  /\ (forall l, sel = Some (Packages l) -> chosen = l /\ s2 = s).
Proof.
  intros Hcheck Hchoose.
  destruct (check_algorithms_selection_returns _ _ _ _ _ Hcheck) as [-> Hsel].
  destruct (choose_algorithms_returns _ _ _ _ _ Hchoose) as [Hlist Hother].
  split.
  - destruct sel as [[w|l]|].
    + apply Hother. intros l H. discriminate H.
    + destruct (Hlist l eq_refl) as [-> _]. exact (proj2 Hsel).
    + apply Hother. intros l H. discriminate H.
  - intros l Hl. exact (Hlist l Hl).
Qed.

(** Two packages named on the command line. *)
Lemma chosen_algorithms_are_rail_packages_witness :
  let m := machine [] [] (quiet_shell "") in
  In "pz-rail-dnf" EXTRA_RAIL_PACKAGES /\ In "pz-rail-yaw" EXTRA_RAIL_PACKAGES.
Proof.
  intros m.
  pose proof (proj1 (chosen_algorithms_are_rail_packages m
                       (Some ["pz-rail-dnf"; "pz-rail-yaw"]) (session [])
                       (Some (Packages ["pz-rail-dnf"; "pz-rail-yaw"]))
                       (session []) ["pz-rail-dnf"; "pz-rail-yaw"] (session [])
                       eq_refl eq_refl)) as Hall.
  split; apply Hall; [left | right; left]; reflexivity.
Defined.

(** X12. [check_algorithms_selection] refuses a list exactly when one of its
    elements is not in [EXTRA_RAIL_PACKAGES], unless the list is the single
    word [all] or [none]: so [all] together with a package is refused, and
    the empty list is accepted.  It reads no line and runs nothing. *)
Theorem check_algorithms_selection_refuses m l s :
  let single :=
    match l with
    | [w] => String.eqb w "all" || String.eqb w "none"
    | _ => false
    end in
  ((exists message,
      fst (check_algorithms_selection m (Some l) s)
      = Raise (RAILInstallationError message 1))
   <-> single = false /\ exists p, In p l /\ ~ In p EXTRA_RAIL_PACKAGES)
  /\ stdin (snd (check_algorithms_selection m (Some l) s)) = stdin s
  /\ actions (log (snd (check_algorithms_selection m (Some l) s)))
     = actions (log s).
Proof.
  intros single. unfold check_algorithms_selection.
  assert (Hsingle : (List.length l =? 1)%nat && Py.mem (hd "" l) ["all"; "none"]
                    = single).
  { unfold single. destruct l as [|w [|x l]]; try reflexivity.
    cbn. rewrite orb_false_r. reflexivity. }
  rewrite Hsingle. clear Hsingle. cbv zeta.
  destruct single.
  - split; [|split; reflexivity]. split.
    + intros (message & H). discriminate H.
    + intros [H _]. discriminate H.
  - destruct (existsb (fun b : bool => b)
                (map (fun s0 => negb (Py.mem s0 EXTRA_RAIL_PACKAGES)) l))
      eqn:Hbad.
    + split; [|split; reflexivity]. split.
      * intros _. split; [reflexivity|].
        apply existsb_exists in Hbad as (b & Hin & ->).
        apply in_map_iff in Hin as (p & Hp & Hin).
        exists p. split; [exact Hin|]. apply not_mem.
        destruct (Py.mem p EXTRA_RAIL_PACKAGES); [discriminate Hp | reflexivity].
      * intros _. eexists. reflexivity.
    + split; [|split; reflexivity]. split.
      * intros (message & H). discriminate H.
      * intros (_ & p & Hin & Hout). exfalso. apply not_mem in Hout.
        assert (Hex : existsb (fun b : bool => b)
                   (map (fun s0 => negb (Py.mem s0 EXTRA_RAIL_PACKAGES)) l) = true).
        { apply existsb_exists. exists true. split; [|reflexivity].
          apply in_map_iff. exists p. rewrite Hout. auto. }
        congruence.
Qed.

(** The word [all] followed by a package. *)
Lemma check_algorithms_selection_refuses_witness :
  let m := machine [] [] (quiet_shell "") in
  exists message,
    fst (check_algorithms_selection m (Some ["all"; "pz-rail-bpz"]) (session []))
    = Raise (RAILInstallationError message 1).
Proof.
  intros m.
  apply (proj1 (check_algorithms_selection_refuses m ["all"; "pz-rail-bpz"]
                  (session []))).
  split; [reflexivity|]. exists "all". split; [left; reflexivity|].
  intros H. repeat (destruct H as [H|H]; [discriminate H|]). exact H.
Defined.

(** ** Dry runs with a manager on the search path *)





















(** ** Commands run inside the environment *)

Lemma shown_in_env_comment manager chosen cmd :
  shown_in_env manager chosen true cmd
  = "# " ++ shown_in_env manager chosen false cmd.
Proof. reflexivity. Qed.

(** [run_in_env_cmd] hands one line to [run_cmd], unless the manager cannot
    be reached. *)
Lemma run_in_env_cmd_line m self manager chosen cmd kw :
  env_manager self = Some manager ->
  env_name self = Some chosen ->
  (activation_script manager = None -> which m (executable manager) = true) ->
  run_in_env_cmd m self cmd kw
  = run_cmd m (shown_in_env manager chosen false cmd) kw.
Proof.
  intros Hm Hn Hw. unfold run_in_env_cmd, run_env_manager_cmd, shown_in_env.
  rewrite Hm, Hn. cbn [expect]. unfold bind at 1 2 3. cbn [ret].
  destruct (activation_script manager) as [script|].
  - cbn [append]. rewrite !append_assoc. reflexivity.
  - rewrite (Hw eq_refl). reflexivity.
Qed.

Lemma run_in_env_cmd_returns m self cmd kw s r s' :
  run_in_env_cmd m self cmd kw s = (Return r, s') ->
  exists manager chosen,
    env_manager self = Some manager /\ env_name self = Some chosen
    /\ stdin s' = stdin s
    /\ commands (log s')
       = (commands (log s)
          ++ [shown_in_env manager chosen (as_comment kw) cmd])%list.
Proof.
  intros H.
  destruct (env_manager self) as [manager|] eqn:Hm;
    [|unfold run_in_env_cmd in H; rewrite Hm in H; discriminate H].
  destruct (env_name self) as [chosen|] eqn:Hn;
    [|unfold run_in_env_cmd in H; rewrite Hm, Hn in H; discriminate H].
  exists manager, chosen. split; [reflexivity|]. split; [reflexivity|].
  destruct (activation_script manager) as [script|] eqn:Hs.
  - rewrite (run_in_env_cmd_line m self manager chosen cmd kw Hm Hn) in H
      by (rewrite Hs; discriminate).
    apply run_cmd_returns in H as (Hi & _ & Hc). split; [exact Hi|].
    rewrite Hc. destruct (as_comment kw); reflexivity.
  - destruct (which m (executable manager)) eqn:Hw.
    + rewrite (run_in_env_cmd_line m self manager chosen cmd kw Hm Hn) in H
        by (intros _; exact Hw).
      apply run_cmd_returns in H as (Hi & _ & Hc). split; [exact Hi|].
      rewrite Hc. destruct (as_comment kw); reflexivity.
    + unfold run_in_env_cmd, run_env_manager_cmd in H.
      rewrite Hm, Hn in H. revert H. run_monad. rewrite Hs, Hw. discriminate.
Qed.

Lemma pip_install_each_returns m self manager chosen packages :
  env_manager self = Some manager -> env_name self = Some chosen ->
  forall s u s',
    pip_install_each m self packages s = (Return u, s') ->
    stdin s' = stdin s
    /\ commands (log s')
       = (commands (log s)
          ++ map (fun package =>
                    shown_in_env manager chosen (dry_run self)
                      ("pip install " ++ package
                       ++ (if verbose self then "" else " --quiet")))
               packages)%list.
Proof.
  intros Hm Hn. induction packages as [|package rest IH]; intros s u s' H.
  - cbn in H. injection H as _ <-. cbn. rewrite app_nil_r. split; reflexivity.
  - cbn [pip_install_each] in H. step H u1 s1 E1.
    unfold pip_install_package in E1. step E1 r2 s2 E2.
    cbn in E1. injection E1 as _ <-.
    destruct (run_in_env_cmd_returns _ _ _ _ _ _ _ E2)
      as (manager' & chosen' & Hm' & Hn' & Hi & Hc).
    rewrite Hm in Hm'. injection Hm' as <-.
    rewrite Hn in Hn'. injection Hn' as <-.
    destruct (IH _ _ _ H) as (Hi' & Hc').
    split; [congruence|]. rewrite Hc', Hc. cbn [as_comment map].
    rewrite <- app_assoc. reflexivity.
Qed.

Lemma request_input_loop_commands ps options allow_any lines :
  forall lg,
    commands (log (snd (request_input_loop ps options allow_any None lines lg)))
    = commands lg.
Proof.
  induction lines as [|line rest IH]; intros lg; cbn [request_input_loop].
  - reflexivity.
  - match goal with
    | |- context [if ?b then _ else _] => destruct b
    end; [rewrite IH|]; reflexivity.
Qed.

Lemma request_input_commands m prompt options allow_any s :
  commands (log (snd (request_input m prompt options allow_any None s)))
  = commands (log s).
Proof.
  unfold request_input. destruct (isatty m); cbn [negb].
  - apply request_input_loop_commands.
  - destruct (Py.format ERROR_NONINTERACTIVE_INPUT [("prompt", prompt)]);
      reflexivity.
Qed.

Lemma ask_each_commands m algos :
  forall s, commands (log (snd (ask_each m algos s))) = commands (log s).
Proof.
  induction algos as [|algo rest IH]; intros s; cbn [ask_each]; [reflexivity|].
  unfold bind at 1.
  pose proof (request_input_commands m ("Install " ++ algo ++ "?") ["y"; "n"]
                false s) as Hq.
  destruct (request_input m ("Install " ++ algo ++ "?") ["y"; "n"] false None s)
    as [[answer|e] s1]; cbn [snd] in Hq; [|exact Hq].
  unfold bind at 1. specialize (IH s1).
  destruct (ask_each m rest s1) as [[chosen|e] s2]; unfold ret;
    cbn [snd] in IH |- *; congruence.
Qed.

Lemma choose_algorithms_commands m sel s :
  commands (log (snd (choose_algorithms m sel s))) = commands (log s).
Proof.
  unfold choose_algorithms. unfold bind at 1.
  assert (Hfirst : forall c : M selection,
             commands (log (snd (c s))) = commands (log s) ->
             commands
               (log (snd (let (o, s') := c s in
                          match o with
                          | Return a =>
                              match a with
                              | Word w =>
                                  if String.eqb w "all" then ret EXTRA_RAIL_PACKAGES
                                  else if String.eqb w "none" then ret []
                                  else ask_each m EXTRA_RAIL_PACKAGES
                              | Packages l => ret l
                              end s'
                          | Raise e => (Raise e, s')
                          end)))
             = commands (log s)).
  { intros c Hc. destruct (c s) as [[[w|l]|e] s1]; cbn [snd] in Hc |- *;
      try exact Hc.
    destruct (String.eqb w "all"); [exact Hc|].
    destruct (String.eqb w "none"); [exact Hc|].
    rewrite ask_each_commands. exact Hc. }
  apply Hfirst. destruct sel as [sel|]; [reflexivity|].
  run_monad.
  pose proof (request_input_commands m "Which algorithms should be installed?"
                ["all"; "none"; "select"] false
                {| stdin := stdin s;
                   log := Printed
                            ("Available " ++ RAIL_COLORIZED m ++ " algorithms:"
                             ++ LF ++ String "009" EmptyString
                             ++ Py.join (LF ++ String "009" EmptyString)
                                  EXTRA_RAIL_PACKAGES) :: log s |}) as Hq.
  cbv [stdin log] in Hq.
  match goal with
  | |- context [request_input ?a ?b ?c ?d ?e ?f] =>
      destruct (request_input a b c d e f) as [[answer|e0] s1]
  end; cbn [snd fst] in *; exact Hq.
Qed.

Lemma choose_additional_dependencies_returns m sel s grouped s' :
  choose_additional_dependencies m sel s = (Return grouped, s') ->
  (grouped = [] \/ grouped = ["jupyter"; "seaborn"; "corner"; "matplotlib"])
  /\ commands (log s') = commands (log s).
Proof.
  unfold choose_additional_dependencies. cbv zeta. destruct sel as [w|].
  - intros H. cbn in H. injection H as <- <-.
    destruct (String.eqb w "yes"); auto.
  - intros H.
    pose proof (request_input_commands m
                  ("Install additional packages: "
                   ++ Py.join ", " ["jupyter"; "seaborn"; "corner"; "matplotlib"]
                   ++ "?") ["y"; "n"] false s) as Hq.
    step H answer s1 E1. cbn [snd] in Hq.
    cbn in H. injection H as <- <-.
    destruct (String.eqb answer "y"); auto.
Qed.

(** X14. If [pip_install] returns, what it handed to the shell is, in this
    order: the upgrade of [pip]; the development tools that
    [choose_additional_dependencies] returned, in one command, when there are
    any; the installation of [pz-rail]; then one command for each algorithm
    that [choose_algorithms] returned, in the order returned.  A list of
    algorithms given on the command line is installed as given, [all] stands
    for [EXTRA_RAIL_PACKAGES] and [none] for nothing; the tools are the four
    packages exactly when [yes] was given.  Every one of these lines is the
    command wrapped for the environment, a comment in a dry run. *)
Theorem pip_install_commands m self rail devtools s u s' :
  pip_install m self rail devtools s = (Return u, s') ->
  exists manager chosen algorithms s1 tools s2,
    env_manager self = Some manager /\ env_name self = Some chosen
    /\ choose_algorithms m rail
         {| stdin := stdin s;
            log := Header ("Adding " ++ RAIL_COLORIZED m
                           ++ " packages to environment") :: log s |}
       = (Return algorithms, s1)
    /\ choose_additional_dependencies m devtools s1 = (Return tools, s2)
    /\ (forall l, rail = Some (Packages l) -> algorithms = l)
    /\ (rail = Some (Word "all") -> algorithms = EXTRA_RAIL_PACKAGES)
    /\ (rail = Some (Word "none") -> algorithms = [])
    /\ (forall w, devtools = Some w ->
                  tools = if String.eqb w "yes"
                          then ["jupyter"; "seaborn"; "corner"; "matplotlib"]
                          else [])
    /\ (tools = [] \/ tools = ["jupyter"; "seaborn"; "corner"; "matplotlib"])
    /\ commands (log s')
       = (commands (log s)
          ++ shown_in_env manager chosen (dry_run self)
               "python -m ensurepip --upgrade"
          :: map (fun package =>
                    shown_in_env manager chosen (dry_run self)
                      ("pip install " ++ package
                       ++ (if verbose self then "" else " --quiet")))
               ((if (0 <? List.length tools)%nat then [Py.join " " tools] else [])
                ++ "pz-rail" :: algorithms))%list.
Proof.
  unfold pip_install. intros H.
  step H u0 s0 E0. cbn in E0. injection E0 as _ <-.
  step H algorithms s1 E1.
  match type of E1 with
  | choose_algorithms m rail ?s0 = _ =>
      pose proof (choose_algorithms_commands m rail s0) as Halg
  end.
  rewrite E1 in Halg. cbn [snd log commands] in Halg.
  step H tools s2 E2.
  pose proof (choose_additional_dependencies_returns _ _ _ _ _ E2)
    as [Htools Hdev].
  step H u3 s3 E3. cbn in E3. injection E3 as _ <-.
  step H r4 s4 E4.
  destruct (run_in_env_cmd_returns _ _ _ _ _ _ _ E4)
    as (manager & chosen & Hm & Hn & _ & Hensure).
  cbn [log commands as_comment] in Hensure.
  exists manager, chosen, algorithms, s1, tools, s2.
  split; [exact Hm|]. split; [exact Hn|]. split; [exact E1|].
  split; [exact E2|].
  split; [intros l ->; cbn in E1; injection E1 as -> _; reflexivity|].
  split; [intros ->; cbn in E1; injection E1 as <- _; reflexivity|].
  split; [intros ->; cbn in E1; injection E1 as <- _; reflexivity|].
  split; [intros w ->; cbn in E2; injection E2 as <- _; reflexivity|].
  split; [exact Htools|].
  step H u5 s5 E5.
  destruct (pip_install_each_returns m self manager chosen _ Hm Hn _ _ _ H)
    as [_ Heach].
  destruct Htools as [-> | ->]; cbn [List.length Nat.ltb Nat.leb] in E5 |- *.
  - cbn in E5. injection E5 as _ <-.
    rewrite Heach, Hensure, Hdev, Halg. cbn [app map].
    rewrite <- app_assoc. reflexivity.
  - unfold pip_install_package in E5. step E5 r6 s6 E6.
    cbn in E5. injection E5 as _ <-.
    destruct (run_in_env_cmd_returns _ _ _ _ _ _ _ E6)
      as (manager' & chosen' & Hm' & Hn' & _ & Hgroup).
    rewrite Hm in Hm'. injection Hm' as <-.
    rewrite Hn in Hn'. injection Hn' as <-.
    rewrite Heach, Hgroup, Hensure, Hdev, Halg. cbn [app map as_comment Py.join].
    rewrite <- !app_assoc. reflexivity.
Qed.

(** Two algorithms named on the command line, in an order that is not that
    of [EXTRA_RAIL_PACKAGES], and the tools asked for. *)
Lemma pip_install_commands_witness :
  let m := conda_machine [] in
  let self := set_env_name (detected miniconda true false) "rail" in
  commands (log (snd (pip_install m self
                        (Some (Packages ["pz-rail-flexzboost"; "pz-rail-bpz"]))
                        (Some "yes") (session []))))
  = [". /home/u/miniconda3/bin/activate && conda run  --no-capture-output --name rail python -m ensurepip --upgrade";
     ". /home/u/miniconda3/bin/activate && conda run  --no-capture-output --name rail pip install jupyter seaborn corner matplotlib --quiet";
     ". /home/u/miniconda3/bin/activate && conda run  --no-capture-output --name rail pip install pz-rail --quiet";
     ". /home/u/miniconda3/bin/activate && conda run  --no-capture-output --name rail pip install pz-rail-flexzboost --quiet";
     ". /home/u/miniconda3/bin/activate && conda run  --no-capture-output --name rail pip install pz-rail-bpz --quiet"].
Proof.
  intros m self.
  destruct (pip_install_commands m self
              (Some (Packages ["pz-rail-flexzboost"; "pz-rail-bpz"]))
              (Some "yes") (session []) tt
              (snd (pip_install m self
                      (Some (Packages ["pz-rail-flexzboost"; "pz-rail-bpz"]))
                      (Some "yes") (session []))))
    as (manager & chosen & algorithms & s1 & tools & s2
        & Hm & Hn & _ & _ & Hl & _ & _ & Hw & _ & Hc).
  - vm_compute. reflexivity.
  - rewrite Hc, (Hl _ eq_refl), (Hw _ eq_refl).
    injection Hm as <-. injection Hn as <-. reflexivity.
Defined.

(** X15. The cleaning of [post_install] does not look at [dry_run]: when it
    is asked for, the cleaning of the manager's cache is handed to the shell
    as a live command, never as a comment, and the purge of the cache of
    [pip] follows when the first command succeeded. *)
Theorem post_install_clean_is_live m self manager chosen s :
  env_manager self = Some manager ->
  env_name self = Some chosen ->
  In manager (ENV_MANAGER_INFO (home m)) ->
  (activation_script manager = None -> which m (executable manager) = true) ->
  let clean_cmd := shown_in_env manager chosen false "conda clean --all --yes" in
  let purge_cmd := shown_in_env manager chosen false "pip cache purge" in
  commands (log (snd (post_install m self true s)))
  = (commands (log s)
     ++ if returncode (subprocess_run m clean_cmd false) =? 0
        then [clean_cmd; purge_cmd] else [clean_cmd])%list
  /\ prefix "# " clean_cmd = false /\ prefix "# " purge_cmd = false.
Proof.
  intros Hm Hn Hin Hw clean_cmd purge_cmd. split.
  - unfold post_install.
    rewrite !(run_in_env_cmd_line m self manager chosen _ _ Hm Hn Hw).
    fold clean_cmd. fold purge_cmd. rewrite Hm, Hn. cbn [expect].
    unfold bind at 1. unfold bind at 1.
    rewrite run_cmd_result. cbv zeta. cbn [as_comment capture_output no_kwargs].
    destruct (returncode (subprocess_run m clean_cmd false) =? 0);
      [|reflexivity].
    unfold bind at 1. rewrite run_cmd_result. cbv zeta.
    cbn [as_comment capture_output no_kwargs stdin log].
    destruct (returncode (subprocess_run m purge_cmd false) =? 0);
      [|cbn; rewrite <- app_assoc; reflexivity].
    run_monad.
    match goal with
    | |- context [Py.format ?t ?b] => destruct (Py.format t b)
    end; cbn; rewrite <- app_assoc; reflexivity.
  - unfold clean_cmd, purge_cmd, shown_in_env.
    destruct Hin as [<-|[<-|[<-|[<-|[]]]]]; split; reflexivity.
Qed.

(** A dry run that is asked to clean: the two commands are live. *)
Lemma post_install_clean_is_live_witness :
  let m := conda_machine [] in
  let self := set_env_name (detected miniconda true true) "rail" in
  dry_run self = true
  /\ commands (log (snd (post_install m self true (session []))))
     = [". /home/u/miniconda3/bin/activate && conda run  --no-capture-output --name rail conda clean --all --yes";
        ". /home/u/miniconda3/bin/activate && conda run  --no-capture-output --name rail pip cache purge"].
Proof.
  intros m self. split; [reflexivity|].
  destruct (post_install_clean_is_live m self miniconda "rail" (session [])
              eq_refl eq_refl) as [Hc _].
  - right. right. left. reflexivity.
  - discriminate.
  - rewrite Hc. reflexivity.
Defined.

(** ** The names of the environments in use *)

Lemma stems_of_strings (prefixes : list string) s :
  stems (map PStr prefixes) s = (Return (map path_stem prefixes), s).
Proof.
  induction prefixes as [|p rest IH]; [reflexivity|].
  cbn [map stems]. unfold bind. rewrite IH. reflexivity.
Qed.

Lemma filter_strings (base : string) (prefixes : list string) :
  filter (fun e => negb (pyval_eqb e (PStr base))) (map PStr prefixes)
  = map PStr (filter (fun p => negb (String.eqb p base)) prefixes).
Proof.
  induction prefixes as [|p rest IH]; [reflexivity|].
  cbn [map filter pyval_eqb]. destruct (String.eqb p base); cbn [negb map];
    rewrite IH; reflexivity.
Qed.

(** X16. With the manager on the search path, when the two queries succeed
    and decode to a list of prefixes under [envs] and to a base prefix, the
    names taken as in use are the stems of the listed prefixes other than
    the base prefix, in the order listed.  The base environment is thus never
    among them by its prefix, and a dot in the last component of a prefix
    cuts the name.  When the first document has no [envs] key the call ends
    in [KeyError] and the second query is not run. *)
Theorem existing_environment_names_listing
    m self manager s listed_text items base_text :
  env_manager_preinitialized self = true ->
  env_manager self = Some manager ->
  returncode (subprocess_run m (executable manager ++ " env list --json") true)
  = 0 ->
  stdout (subprocess_run m (executable manager ++ " env list --json") true)
  = Some listed_text ->
  json_loads m listed_text = Some (PDict items) ->
  (forall prefixes key base others,
     lookup "envs" items = Some (PList (map PStr prefixes)) ->
     returncode (subprocess_run m (executable manager ++ " info --base --json")
                   true) = 0 ->
     stdout (subprocess_run m (executable manager ++ " info --base --json") true)
     = Some base_text ->
     json_loads m base_text = Some (PDict ((key, PStr base) :: others)) ->
     fst (existing_environment_names m self s)
     = Return (map path_stem
                 (filter (fun p => negb (String.eqb p base)) prefixes)))
  /\ (lookup "envs" items = None ->
      fst (existing_environment_names m self s) = Raise KeyError
      /\ commands (log (snd (existing_environment_names m self s)))
         = (commands (log s)
            ++ [(executable manager ++ " env list --json")%string])%list).
Proof.
  intros Hpre Hm Hrc1 Hout1 Hdoc1.
  assert (Hfirst :
            existing_environment_names m self s
            = (existing_prefixes <- subscript (PDict items) "envs" ;;
               base_output <- run_cmd m
                                (executable manager ++ " info --base --json")
                                {| as_comment := false; capture_output := true |} ;;
               base_text <- expect TypeError (stdout base_output) ;;
               base_doc <- expect JSONDecodeError (json_loads m base_text) ;;
               values <- match base_doc with
                         | PDict items => ret (map snd items)
                         | _ => raise AttributeError
                         end ;;
               base_prefix <- expect IndexError (hd_error values) ;;
               elements <- iterate existing_prefixes ;;
               existing_names <-
                 stems (filter (fun e => negb (pyval_eqb e base_prefix)) elements) ;;
               (if (0 <? List.length existing_names)%nat then
                  print ("Existing environments: " ++ Py.join ", " existing_names)
                else ret tt) ;;;
               ret existing_names)
                {| stdin := stdin s;
                   log := Ran (executable manager ++ " env list --json") true
                          :: Printed ("`" ++ colorize m "cmd"
                                        (executable manager ++ " env list --json")
                                      ++ "`") :: log s |}).
  { unfold existing_environment_names. rewrite Hpre, Hm. cbn [negb expect].
    unfold bind at 1. cbn [ret]. unfold bind at 1.
    rewrite run_cmd_result. cbv zeta. cbn [as_comment capture_output].
    rewrite Hrc1. cbn [Z.eqb]. rewrite Hout1. cbn [expect].
    unfold bind at 1. cbn [ret]. rewrite Hdoc1. cbn [expect].
    unfold bind at 1. cbn [ret]. reflexivity. }
  rewrite Hfirst. clear Hfirst. split.
  - intros prefixes key base others Henvs Hrc2 Hout2 Hdoc2.
    unfold subscript. rewrite Henvs. cbn [expect].
    unfold bind at 1. cbn [ret]. unfold bind at 1.
    rewrite run_cmd_result. cbv zeta. cbn [as_comment capture_output].
    rewrite Hrc2. cbn [Z.eqb]. rewrite Hout2. cbn [expect].
    unfold bind at 1. cbn [ret]. rewrite Hdoc2. cbn [expect].
    unfold bind at 1. cbn [ret]. unfold bind at 1. cbn [ret map snd hd_error expect].
    unfold bind at 1. cbn [ret iterate]. unfold bind at 1. cbn [ret].
    rewrite filter_strings. unfold bind at 1. rewrite stems_of_strings.
    unfold bind at 1.
    destruct (0 <? List.length _)%nat; reflexivity.
  - intros Henvs. unfold subscript. rewrite Henvs. split; reflexivity.
Qed.

(** Two environments besides the base one, of which one has a dot in its
    name. *)
Lemma existing_environment_names_listing_witness :
  let m := conda_machine ["/opt/conda/envs/analysis"; "/opt/conda/envs/py3.10"] in
  fst (existing_environment_names m (detected miniconda true false) (session []))
  = Return ["analysis"; "py3"].
Proof.
  intros m.
  exact (proj1 (existing_environment_names_listing m
                  (detected miniconda true false) miniconda (session [])
                  "envs document"
                  [("envs", PList (map PStr ["/opt/conda";
                                             "/opt/conda/envs/analysis";
                                             "/opt/conda/envs/py3.10"]))]
                  "base document" eq_refl eq_refl eq_refl eq_refl eq_refl)
           ["/opt/conda"; "/opt/conda/envs/analysis"; "/opt/conda/envs/py3.10"]
           "root_prefix" "/opt/conda" [] eq_refl eq_refl eq_refl eq_refl).
Defined.

(** ** The frame of an error message *)

Lemma startswith_append c (a b : string) :
  Py.startswith c a = true -> Py.startswith c (a ++ b) = true.
Proof. destruct a; [discriminate | auto]. Qed.

Lemma endswith_one c : Py.endswith c (String c "") = true.
Proof. cbn. apply Ascii.eqb_refl. Qed.

(** X17. The message of a [RAILInstallationError] always starts and ends
    with a line feed; a message that already does is kept as it is, so that
    framing twice is framing once. *)
Theorem framed_message (message : string) :
  Py.startswith "010" (framed message) = true
  /\ Py.endswith "010" (framed message) = true
  /\ (Py.startswith "010" message = true -> Py.endswith "010" message = true ->
      framed message = message)
  /\ framed (framed message) = framed message.
Proof.
  assert (Hshape : Py.startswith "010" (framed message) = true
                   /\ Py.endswith "010" (framed message) = true).
  { unfold framed.
    set (y := if Py.startswith "010" message then message else LF ++ message).
    assert (Hy : Py.startswith "010" y = true).
    { unfold y. destruct (Py.startswith "010" message) eqn:E;
        [exact E | reflexivity]. }
    destruct (Py.endswith "010" y) eqn:He.
    - split; assumption.
    - split; [now apply startswith_append|].
      rewrite endswith_append by discriminate. reflexivity. }
  assert (Hkeep : forall x, Py.startswith "010" x = true ->
                            Py.endswith "010" x = true -> framed x = x).
  { intros x Hs He. unfold framed. rewrite Hs, He. reflexivity. }
  destruct Hshape as [Hs He]. repeat split; auto.
Qed.

Lemma framed_message_witness :
  framed (LF ++ "Aborting." ++ LF) = LF ++ "Aborting." ++ LF.
Proof.
  apply (proj1 (proj2 (proj2 (framed_message (LF ++ "Aborting." ++ LF)))));
    reflexivity.
Defined.

(** ** Where a download is saved *)

(** X18. With the fetcher that [check_requirements] returned, the command
    of a download names the file to write: it is [wget], with the file after
    [--output-document], when [wget] is on the search path, and [curl], with
    the file after [--location --output], otherwise.  Each fetcher has its
    own option and its own flags for a quiet run.  With any other fetcher
    the command is the fetcher and the address alone, and the file is not
    named. *)
Theorem run_fetch_cmd_names_the_file
    m environ_CC environ_CXX s0 s1 self url file kw :
  let with_curl :=
    "curl " ++ url ++ " --location --output " ++ file
    ++ (if verbose self then "" else " --progress-bar") in
  let with_wget :=
    "wget " ++ url ++ " --output-document " ++ file
    ++ (if verbose self then "" else " --quiet --show-progress") in
  (check_requirements m environ_CC environ_CXX s0 = (Return (fetcher self), s1) ->
   run_fetch_cmd m self url file kw
   = run_cmd m (if which m "wget" then with_wget else with_curl) kw)
  /\ (fetcher self = "curl" ->
      run_fetch_cmd m self url file kw = run_cmd m with_curl kw)
  /\ (fetcher self = "wget" ->
      run_fetch_cmd m self url file kw = run_cmd m with_wget kw)
  /\ (fetcher self <> "curl" -> fetcher self <> "wget" ->
      run_fetch_cmd m self url file kw = run_cmd m (fetcher self ++ " " ++ url) kw).
Proof.
  intros with_curl with_wget.
  assert (Hcurl : fetcher self = "curl" ->
                  run_fetch_cmd m self url file kw = run_cmd m with_curl kw).
  { intros E. unfold run_fetch_cmd, with_curl. rewrite E.
    cbn [String.eqb Ascii.eqb Bool.eqb]. destruct (verbose self); cbn [negb];
      repeat rewrite append_assoc; rewrite ?append_empty_r; reflexivity. }
  assert (Hwget : fetcher self = "wget" ->
                  run_fetch_cmd m self url file kw = run_cmd m with_wget kw).
  { intros E. unfold run_fetch_cmd, with_wget. rewrite E.
    cbn [String.eqb Ascii.eqb Bool.eqb]. destruct (verbose self); cbn [negb];
      repeat rewrite append_assoc; rewrite ?append_empty_r; reflexivity. }
  split; [|split; [exact Hcurl | split; [exact Hwget|]]].
  - intros Hcheck.
    destruct (check_requirements_facts _ _ _ _ _ _ Hcheck)
      as (Hon & Hfetcher & Hprefer & _).
    destruct (which m "wget") eqn:Hw.
    + apply Hwget. auto.
    + apply Hcurl. destruct Hfetcher as [E|E]; [|exact E].
      rewrite E, Hw in Hon. discriminate Hon.
  - intros Hc Hw. unfold run_fetch_cmd.
    apply String.eqb_neq in Hc, Hw. rewrite Hc, Hw. reflexivity.
Qed.

(** [wget] is on the search path and was returned; the installer of mamba
    is saved where the installation expects it. *)
Lemma run_fetch_cmd_names_the_file_witness :
  let m := machine ["bash"; "gcc"; "gfortran"; "g++"; "make"; "wget"] []
             (quiet_shell "gcc (GCC) 13.2.0") in
  let self := new_Installer "wget" false true "Linux" "x86_64" in
  run_fetch_cmd m self "https://example.org/installer.sh"
    "/home/u/miniforge3/mamba-installer.sh" no_kwargs
  = run_cmd m
      "wget https://example.org/installer.sh --output-document /home/u/miniforge3/mamba-installer.sh"
      no_kwargs.
Proof.
  intros m self.
  apply (proj1 (run_fetch_cmd_names_the_file m None None (session [])
                  (snd (check_requirements m None None (session [])))
                  self "https://example.org/installer.sh"
                  "/home/u/miniforge3/mamba-installer.sh" no_kwargs)).
  vm_compute. reflexivity.
Defined.

(** ** C5: the name chosen and the environments on the system *)




